(** * check_truenas_extended_play: the classification rules of the probe

    A shallow embedding of [check_truenas_extended_play.py].  The script
    asks a TrueNAS server for one JSON document, classifies it, prints one
    line and leaves with a monitoring-plugin exit code.

    Modelling choices
    - a decoded JSON document is a value of [json]; a Python [dict] is an
      association list in insertion order, with unique keys as [json.loads]
      leaves them;
    - a Python [str] is a byte sequence ([string]): each code point by its
      UTF-8 bytes, and a surrogate code point, which UTF-8 has no bytes
      for, by the byte [FF] and two continuation bytes, so that joining
      and comparing strings stay exact;
    - [print] writes to a UTF-8 stream with the strict error handler, the
      setting of the interpreter in a UTF-8 locale: it raises
      [UnicodeEncodeError] on a string that holds a surrogate;
    - a raised exception is a value of [exn]; code that may raise lives in
      the [result] monad, and a [try ... except:] is a [match] on it;
    - the process is observed through [outcome]: the line given to [print]
      and the status given to [sys.exit], or an exception nobody caught. *)

From Stdlib Require Import String Ascii List ZArith NArith Bool Lia.
From Stdlib Require Import DecimalString Permutation.
From Stdlib Require SpecFloat.
Import ListNotations.

Local Open Scope list_scope.
Local Open Scope string_scope.

(** ** Python values and exceptions *)

Module Py.

(** What [json.loads] can return. *)
#[warning="-register-all"] Inductive json : Type :=
| JNull
| JBool (b : bool)
| JInt (z : Z)
| JFloat (f : SpecFloat.spec_float)
| JStr (s : string)
| JArr (items : list json)
| JObj (fields : list (string * json)).

(** The exceptions this program can meet.  The three transport ones are
    raised by the [requests] library, the others by the interpreter, the
    last one by [print]. *)
Inductive exn : Type :=
| KeyError (key : json)
| TypeError
| AttributeError
| RequestException (detail : string)
| HTTPError (detail : string)
| JSONDecodeError
| UnicodeEncodeError.

Inductive result (A : Type) : Type :=
| Ok (a : A)
| Raise (e : exn).
Arguments Ok {A} a.
Arguments Raise {A} e.

Definition bind {A B} (m : result A) (k : A -> result B) : result B :=
  match m with
  | Ok a => k a
  | Raise e => Raise e
  end.

(** [for x in xs: s = step s x], leaving at the first exception. *)
Fixpoint for_each {S X} (step : S -> X -> result S) (xs : list X) (s : S)
  : result S :=
  match xs with
  | [] => Ok s
  | x :: xs' => bind (step s x) (for_each step xs')
  end.

(** *** Strings *)

Definition newline : ascii := "010"%char.

(** [s.replace('\n', '. ')] *)
Fixpoint replace_newlines (s : string) : string :=
  match s with
  | EmptyString => EmptyString
  | String c s' =>
      if Ascii.eqb c newline then String "." (String " " (replace_newlines s'))
      else String c (replace_newlines s')
  end.

Definition is_upper (c : ascii) : bool :=
  let n := N_of_ascii c in (65 <=? n)%N && (n <=? 90)%N.

Definition lower_char (c : ascii) : ascii :=
  if is_upper c then ascii_of_N (N_of_ascii c + 32) else c.

(** [s.lower()] on the ASCII letters.  Python also lowers letters outside
    ASCII; none of them becomes an [a] or an [l], so the comparison with
    ['all'], the only use of [lower] in the program, is decided alike. *)
Fixpoint lower (s : string) : string :=
  match s with
  | EmptyString => EmptyString
  | String c s' => String (lower_char c) (lower s')
  end.

(** A byte [10xxxxxx] continues the code point begun before it. *)
Definition is_continuation (c : ascii) : bool :=
  let n := N_of_ascii c in (128 <=? n)%N && (n <? 192)%N.

Definition starts_with_continuation (s : string) : bool :=
  match s with
  | EmptyString => false
  | String c _ => is_continuation c
  end.

(** The characters of a [str], each with the bytes that encode it. *)
Fixpoint chars (s : string) : list string :=
  match s with
  | EmptyString => []
  | String b s' =>
      match chars s' with
      | c :: cs =>
          if starts_with_continuation c then String b c :: cs
          else String b EmptyString :: c :: cs
      | [] => [String b EmptyString]
      end
  end.

Definition bytes (ns : list N) : string :=
  string_of_list_ascii (map ascii_of_N ns).

(** The characters [str.isspace] accepts: U+0009..U+000D, U+001C..U+0020,
    U+0085, U+00A0, U+1680, U+2000..U+200A, U+2028, U+2029, U+202F,
    U+205F and U+3000. *)
Definition whitespace : list string :=
  map bytes
    [ [9]; [10]; [11]; [12]; [13]; [28]; [29]; [30]; [31]; [32];
      [194; 133]; [194; 160]; [225; 154; 128];
      [226; 128; 128]; [226; 128; 129]; [226; 128; 130]; [226; 128; 131];
      [226; 128; 132]; [226; 128; 133]; [226; 128; 134]; [226; 128; 135];
      [226; 128; 136]; [226; 128; 137]; [226; 128; 138];
      [226; 128; 168]; [226; 128; 169]; [226; 128; 175];
      [226; 129; 159]; [227; 128; 128] ]%N.

Definition isspace (c : string) : bool :=
  existsb (String.eqb c) whitespace.

Fixpoint drop_while {A} (p : A -> bool) (l : list A) : list A :=
  match l with
  | [] => []
  | x :: l' => if p x then drop_while p l' else l
  end.

Definition lstrip_chars (cs : list string) : list string :=
  drop_while isspace cs.

Definition rstrip_chars (cs : list string) : list string :=
  rev (drop_while isspace (rev cs)).

(** [s.strip()] *)
Definition strip (s : string) : string :=
  String.concat "" (rstrip_chars (lstrip_chars (chars s))).

(** The byte that begins a surrogate code point in a [str]; no UTF-8
    sequence holds it. *)
Definition surrogate_lead : ascii := ascii_of_N 255.

(** The surrogate code point U+D800 + [k], for [k] below 2048. *)
Definition surrogate (k : N) : string :=
  bytes [255; 128 + k / 64; 128 + k mod 64]%N.

(** The string holds a surrogate code point.  [json.loads] makes one of an
    escape such as [\ud800] that has no partner, and the interpreter makes
    one of each byte of a command-line argument that is not UTF-8. *)
Fixpoint has_surrogate (s : string) : bool :=
  match s with
  | EmptyString => false
  | String c s' => Ascii.eqb c surrogate_lead || has_surrogate s'
  end.

(** [str(n)] for a count. *)
Definition str_of_count (n : N) : string :=
  NilEmpty.string_of_uint (N.to_uint n).

(** *** Operators on decoded JSON *)

Fixpoint assoc (k : string) (fields : list (string * json)) : option json :=
  match fields with
  | [] => None
  | (k', v) :: rest => if String.eqb k k' then Some v else assoc k rest
  end.

(** [v[key]] with a string key: only a [dict] answers; a list or a
    string wants an integer index, the rest cannot be subscripted. *)
Definition subscript (v : json) (key : string) : result json :=
  match v with
  | JObj fields =>
      match assoc key fields with
      | Some x => Ok x
      | None => Raise (KeyError (JStr key))
      end
  | _ => Raise TypeError
  end.

(** [iter(v)]: a list yields its items, a dict its keys, a string its
    characters; nothing else can be iterated. *)
Definition iterate (v : json) : result (list json) :=
  match v with
  | JArr items => Ok items
  | JObj fields => Ok (map (fun kv => JStr (fst kv)) fields)
  | JStr s => Ok (map JStr (chars s))
  | _ => Raise TypeError
  end.

(** The binary64 number one. *)
Definition float_one : SpecFloat.spec_float :=
  SpecFloat.S754_finite false 4503599627370496 (-52).

(** [v == True]: [True] is the integer one. *)
Definition eq_True (v : json) : bool :=
  match v with
  | JBool b => b
  | JInt z => (z =? 1)%Z
  | JFloat f => SpecFloat.SFeqb f float_one
  | _ => false
  end.

(** [v == s] for a string literal [s]. *)
Definition eq_str (v : json) (s : string) : bool :=
  match v with
  | JStr s' => String.eqb s' s
  | _ => false
  end.

(** [a + v] where [a] is a [str]. *)
Definition str_add (a : string) (v : json) : result string :=
  match v with
  | JStr s => Ok (a ++ s)
  | _ => Raise TypeError
  end.

(** [v + b] where [b] is a [str]: every JSON value but a string
    refuses it. *)
Definition add_str (v : json) (b : string) : result string :=
  match v with
  | JStr s => Ok (s ++ b)
  | _ => Raise TypeError
  end.

(** [v.replace('\n', '. ')]: only [str] has the method. *)
Definition replace_method (v : json) : result string :=
  match v with
  | JStr s => Ok (replace_newlines s)
  | _ => Raise AttributeError
  end.

(** [v in d] for a dict [d] with the string keys [keys]: the value is
    hashed first, which a list or a dict refuses. *)
Definition in_keys (v : json) (keys : list string) : result bool :=
  match v with
  | JArr _ | JObj _ => Raise TypeError
  | JStr s => Ok (existsb (String.eqb s) keys)
  | _ => Ok false
  end.

End Py.

Import Py.

Notation "x <- m ;; k" := (bind m (fun x => k))
  (at level 61, m at next level, right associativity).

(** ** The process and the network *)

Inductive RequestTypeEnum : Type :=
| GET_REQUEST
| POST_REQUEST.

(** The attributes [__init__] stores.  [_user] is [None] when [--user] is
    not given. *)
Record Startup : Type := {
  _hostname : string;
  _user : option string;
  _secret : string;
  _use_ssl : bool;
  _verify_cert : bool;
  _ignore_dismissed_alerts : bool;
  _debug_logging : bool;
  _zpool_name : string
}.

Definition _base_url (self : Startup) : string :=
  (if _use_ssl self then "https" else "http") ++ "://" ++ _hostname self
  ++ "/api/v2.0".

(** The [auth] argument of [requests.get]: [False] or a pair. *)
Inductive auth_arg : Type :=
| AuthFalse
| AuthPair (user secret : string).

Record request : Type := {
  req_type : RequestTypeEnum;
  req_url : string;
  req_auth : auth_arg;
  req_headers : list (string * string);
  req_verify : bool
}.

(** What the [requests] library does with a request inside the first [try]
    block of [do_request]: either a call there ([requests.get],
    [requests.post], [r.raise_for_status()]) raises, or a response [r]
    comes back with its [r.ok] and the result of [r.json()].  The library
    is not part of the program; its answer is an input of the model.  The
    library computes [r.ok] by calling [raise_for_status], so a response
    that passed line 107 has [ok] true; the type keeps the flag because
    the code tests it.  The warnings [urllib3] is told to keep quiet go to
    the error stream and are not modelled. *)
Inductive reply : Type :=
| Raised (e : exn)
| Response (ok : bool) (decoded : result json).

Definition network : Type := request -> reply.

(** What the process leaves behind.
    - [Exit line status]: [print(line)] then [sys.exit(status)];
    - [ExitExc prefix e status]: [print(prefix + str(sys.exc_info()))] in the
      handler of [e], then [sys.exit(status)]; the text of the exception
      triple holds a memory address and stays symbolic; it is made with
      [repr], which writes a surrogate as an escape, so this line can
      always be encoded;
    - [Traceback e]: [e] reaches the top level; the interpreter writes the
      traceback to the error stream, nothing to the output, and leaves
      with status 1. *)
Inductive outcome : Type :=
| Exit (line : string) (status : Z)
| ExitExc (prefix : string) (e : exn) (status : Z)
| Traceback (e : exn).

Definition exit_status (o : outcome) : Z :=
  match o with
  | Exit _ status => status
  | ExitExc _ _ status => status
  | Traceback _ => 1
  end.

(** [print(line)] followed by [sys.exit(status)], outside any [try]: when
    the line cannot be encoded [print] raises, nothing is written and the
    exception reaches the top level. *)
Definition print_then_exit (line : string) (status : Z) : outcome :=
  if has_surrogate line then Traceback UnicodeEncodeError
  else Exit line status.

(** [if (self._user)]: [None] and the empty string are false. *)
Definition user_given (self : Startup) : option string :=
  match _user self with
  | Some (String c u) => Some (String c u)
  | _ => None
  end.

(** [do_request]: the decoded document, or the way the process ended.
    [RequestTypeEnum] has two members, so the branch for an unknown request
    type is never taken.  When [r.ok] is false the method falls off its end
    and returns [None]. *)
Definition do_request (self : Startup) (net : network) (resource : string)
  (requestType : RequestTypeEnum) : json + outcome :=
  let request_url := _base_url self ++ "/" ++ resource ++ "/" in
  let auth :=
    match user_given self with
    | Some u => AuthPair u (_secret self)
    | None => AuthFalse
    end in
  let headers :=
    match user_given self with
    | Some _ => []
    | None => [("Authorization", "Bearer " ++ _secret self)]
    end in
  match net {| req_type := requestType; req_url := request_url;
               req_auth := auth; req_headers := headers;
               req_verify := _verify_cert self |} with
  | Raised e =>
      inr (ExitExc
             "UNKNOWN - request failed - Error when contacting TrueNAS server: "
             e 3)
  | Response ok decoded =>
      if ok then
        match decoded with
        | Ok j => inl j
        | Raise e =>
            inr (ExitExc
                   "UNKNOWN - json failed to parse - Error when contacting TrueNAS server: "
                   e 3)
        end
      else inl JNull
  end.

Definition get_request (self : Startup) (net : network) (resource : string)
  : json + outcome :=
  do_request self net resource GET_REQUEST.

Definition post_request (self : Startup) (net : network) (resource : string)
  : json + outcome :=
  do_request self net resource POST_REQUEST.

(** Run the rest of a check on the document, unless the request already
    ended the process. *)
Definition and_then (r : json + outcome) (k : json -> outcome) : outcome :=
  match r with
  | inl j => k j
  | inr o => o
  end.

(** ** check_alerts *)

Module Alerts.

(** The locals the loop updates. *)
Record locals : Type := {
  warn : N;
  crit : N;
  critial_messages : string;
  warning_messages : string
}.

Definition initial : locals :=
  {| warn := 0; crit := 0; critial_messages := ""; warning_messages := "" |}.

(** One turn of [for alert in alerts].  [and] does not look at
    [alert['dismissed']] when [_ignore_dismissed_alerts] is false; the
    [elif] looks [alert['level']] up again. *)
Definition loop_body (ignore_dismissed : bool) (st : locals) (alert : json)
  : result locals :=
  skip <- (if ignore_dismissed
           then d <- subscript alert "dismissed" ;; Ok (eq_True d)
           else Ok false) ;;
  if (skip : bool) then Ok st
  else
    level <- subscript alert "level" ;;
    if eq_str level "CRITICAL" then
      formatted <- subscript alert "formatted" ;;
      text <- replace_method formatted ;;
      Ok {| warn := warn st;
            crit := crit st + 1;
            critial_messages :=
              ((critial_messages st ++ "- (C) ") ++ text) ++ " ";
            warning_messages := warning_messages st |}
    else
      level' <- subscript alert "level" ;;
      if eq_str level' "WARNING" then
        formatted <- subscript alert "formatted" ;;
        text <- replace_method formatted ;;
        Ok {| warn := warn st + 1;
              crit := crit st;
              critial_messages := critial_messages st;
              warning_messages :=
                ((warning_messages st ++ "- (W) ") ++ text) ++ " " |}
      else Ok st.

(** The [try] block: the whole loop. *)
Definition scan (ignore_dismissed : bool) (alerts : json) : result locals :=
  items <- iterate alerts ;;
  for_each (loop_body ignore_dismissed) items initial.

(** The lines after the [try] block. *)
Definition report (st : locals) : outcome :=
  if (0 <? crit st)%N then
    print_then_exit
      (("CRITICAL " ++ critial_messages st) ++ warning_messages st) 2
  else if (0 <? warn st)%N then
    print_then_exit ("WARNING " ++ warning_messages st) 1
  else
    print_then_exit "OK - No problem alerts" 0.

(** [check_alerts] from the decoded document on. *)
Definition classify (ignore_dismissed : bool) (alerts : json) : outcome :=
  match scan ignore_dismissed alerts with
  | Raise e =>
      ExitExc
        "UNKNOWN - check_alerts() - Error when contacting TrueNAS server: "
        e 3
  | Ok st => report st
  end.

End Alerts.

Definition check_alerts (self : Startup) (net : network) : outcome :=
  and_then (get_request self net "alert/list")
           (Alerts.classify (_ignore_dismissed_alerts self)).

(** ** check_zpool *)

Module Zpool.

Record locals : Type := {
  crit : N;
  critial_messages : string;
  zpools_examined : string;
  actual_zpool_count : N;
  all_pool_names : string
}.

Definition initial : locals :=
  {| crit := 0; critial_messages := ""; zpools_examined := "";
     actual_zpool_count := 0; all_pool_names := "" |}.

(** [self._zpool_name.lower() == 'all'] *)
Definition looking_for_all_pools (zpool_name : string) : bool :=
  String.eqb (lower zpool_name) "all".

(** One turn of [for pool in pool_results]. *)
Definition loop_body (zpool_name : string) (st : locals) (pool : json)
  : result locals :=
  let count := (actual_zpool_count st + 1)%N in
  pool_name <- subscript pool "name" ;;
  pool_status <- subscript pool "status" ;;
  name_sp <- add_str pool_name " " ;;
  let names := all_pool_names st ++ name_sp in
  if looking_for_all_pools zpool_name || eq_str pool_name zpool_name then
    examined <- str_add (zpools_examined st ++ " ") pool_name ;;
    if negb (eq_str pool_status "ONLINE") then
      m1 <- str_add (critial_messages st ++ "- (C) ZPool ") pool_name ;;
      m2 <- str_add (m1 ++ "is ") pool_status ;;
      Ok {| crit := crit st + 1;
            critial_messages := m2;
            zpools_examined := examined;
            actual_zpool_count := count;
            all_pool_names := names |}
    else
      Ok {| crit := crit st;
            critial_messages := critial_messages st;
            zpools_examined := examined;
            actual_zpool_count := count;
            all_pool_names := names |}
  else
    Ok {| crit := crit st;
          critial_messages := critial_messages st;
          zpools_examined := zpools_examined st;
          actual_zpool_count := count;
          all_pool_names := names |}.

Definition scan (zpool_name : string) (pool_results : json) : result locals :=
  items <- iterate pool_results ;;
  for_each (loop_body zpool_name) items initial.

(** ['- No Zpools found matching {} out of {} pools ({})'.format(...)] *)
Definition no_match_message (zpool_name : string) (count : N)
  (names : string) : string :=
  "- No Zpools found matching " ++ zpool_name ++ " out of "
  ++ str_of_count count ++ " pools (" ++ names ++ ")".

(** The lines after the [try] block.  [warn] stays 0 and
    [warning_messages] empty in this method. *)
Definition report (zpool_name : string) (st : locals) : outcome :=
  let warn := 0%N in
  let warning_messages := "" in
  let all := looking_for_all_pools zpool_name in
  let examined :=
    if String.eqb (zpools_examined st) "" && (actual_zpool_count st =? 0)%N
       && all
    then "(None - No Zpools found)"
    else zpools_examined st in
  let missed :=
    String.eqb examined "" && (0 <? actual_zpool_count st)%N && negb all
    && (crit st =? 0)%N in
  let crit' := if missed then (crit st + 1)%N else crit st in
  let critial_messages' :=
    if missed
    then no_match_message zpool_name (actual_zpool_count st)
                          (all_pool_names st)
    else critial_messages st in
  if (0 <? crit')%N then
    print_then_exit
      (("CRITICAL " ++ critial_messages') ++ warning_messages) 2
  else if (0 <? warn)%N then
    print_then_exit ("WARNING " ++ warning_messages) 1
  else
    print_then_exit ("OK - No problem Zpools. Zpools examined: " ++ examined)
                    0.

Definition classify (zpool_name : string) (pool_results : json) : outcome :=
  match scan zpool_name pool_results with
  | Raise e =>
      ExitExc
        "UNKNOWN - check_zpool() - Error when contacting TrueNAS server: "
        e 3
  | Ok st => report zpool_name st
  end.

End Zpool.

Definition check_zpool (self : Startup) (net : network) : outcome :=
  and_then (get_request self net "pool") (Zpool.classify (_zpool_name self)).

(** ** check_repl *)

Module Repl.

Record locals : Type := {
  errors : N;
  msg : string;
  replications_examined : string
}.

Definition initial : locals :=
  {| errors := 0; msg := ""; replications_examined := "" |}.

(** One turn of [for repl in repls]. *)
Definition loop_body (st : locals) (repl : json) : result locals :=
  repl_name <- subscript repl "name" ;;
  repl_state_obj <- subscript repl "state" ;;
  repl_state_code <- subscript repl_state_obj "state" ;;
  e1 <- str_add (replications_examined st ++ " ") repl_name ;;
  examined <- str_add (e1 ++ ": ") repl_state_code ;;
  let repl_was_not_success := negb (eq_str repl_state_code "FINISHED") in
  let repl_not_running := negb (eq_str repl_state_code "RUNNING") in
  if repl_was_not_success && repl_not_running then
    m1 <- str_add (msg st) repl_name ;;
    m2 <- str_add (m1 ++ ": ") repl_state_code ;;
    Ok {| errors := errors st + 1; msg := m2;
          replications_examined := examined |}
  else
    Ok {| errors := errors st; msg := msg st;
          replications_examined := examined |}.

Definition scan (repls : json) : result locals :=
  items <- iterate repls ;;
  for_each loop_body items initial.

Definition report (st : locals) : outcome :=
  if (0 <? errors st)%N then
    print_then_exit
      ("WARNING - There are " ++ str_of_count (errors st)
       ++ " replication errors [" ++ strip (msg st)
       ++ "]. Go to Storage > Replication Tasks > View Replication Tasks in TrueNAS for more details.")
      1
  else
    print_then_exit
      ("OK - No replication errors. Replications examined: "
       ++ replications_examined st)
      0.

Definition classify (repls : json) : outcome :=
  match scan repls with
  | Raise e =>
      ExitExc
        "UNKNOWN - check_repl() - Error when contacting TrueNAS server: "
        e 3
  | Ok st => report st
  end.

End Repl.

Definition check_repl (self : Startup) (net : network) : outcome :=
  and_then (get_request self net "replication") Repl.classify.

(** ** check_update *)

Module Update.

Definition updateCheckResultDict : list (string * string) :=
  [ ("UNAVAILABLE", "no update available");
    ("AVAILABLE", "an update is available");
    ("REBOOT_REQUIRED", "an update has already been applied");
    ("HA_UNAVAILABLE", "HA is non-functional") ].

Fixpoint description (table : list (string * string)) (status : string)
  : option string :=
  match table with
  | [] => None
  | (k, d) :: rest =>
      if String.eqb status k then Some d else description rest status
  end.

(** [updateCheckResultDict[v]] *)
Definition dict_subscript (v : json) : result string :=
  match v with
  | JArr _ | JObj _ => Raise TypeError
  | JStr s =>
      match description updateCheckResultDict s with
      | Some d => Ok d
      | None => Raise (KeyError v)
      end
  | _ => Raise (KeyError v)
  end.

(** The [try] block: the status and whether it differs from
    ['UNAVAILABLE']. *)
Definition extract (updateCheckResult : json) : result (json * bool) :=
  updateCheckResultString <- subscript updateCheckResult "status" ;;
  Ok (updateCheckResultString,
      negb (eq_str updateCheckResultString "UNAVAILABLE")).

(** The lines after the [try] block, where nothing catches an exception,
    up to the call of [print]: the line to print and the exit status. *)
Definition report (updateCheckResultString : json)
  (needsUpdateOrOtherPossibleIssue : bool) : result (string * Z) :=
  if needsUpdateOrOtherPossibleIssue then
    known <- in_keys updateCheckResultString
                     (map fst updateCheckResultDict) ;;
    if (known : bool) then
      l1 <- str_add "WARNING - Update Status: " updateCheckResultString ;;
      d <- dict_subscript updateCheckResultString ;;
      Ok (l1 ++ " (" ++ d
          ++ "). Update may be required. Go to TrueNAS Dashboard -> System -> Update to check for newer version.",
          1%Z)
    else
      l1 <- str_add "WARNING - Unknown Update Status: "
                    updateCheckResultString ;;
      Ok (l1
          ++ ". Update may be required. Go to TrueNAS Dashboard -> System -> Update to check for newer version.",
          1%Z)
  else
    l1 <- str_add "OK - Update Status: " updateCheckResultString ;;
    d <- dict_subscript updateCheckResultString ;;
    Ok (l1 ++ " (" ++ d ++ ")", 0%Z).

Definition classify (updateCheckResult : json) : outcome :=
  match extract updateCheckResult with
  | Raise e =>
      ExitExc
        "UNKNOWN - check_update() - Error when contacting TrueNAS server: "
        e 3
  | Ok (status, needs) =>
      match report status needs with
      | Ok (line, code) => print_then_exit line code
      | Raise e => Traceback e
      end
  end.

End Update.

Definition check_update (self : Startup) (net : network) : outcome :=
  and_then (post_request self net "update/check_available") Update.classify.

(** ** The dispatcher *)

Definition handle_requested_alert_type (self : Startup) (net : network)
  (alert_type : string) : outcome :=
  if String.eqb alert_type "alerts" then check_alerts self net
  else if String.eqb alert_type "repl" then check_repl self net
  else if String.eqb alert_type "update" then check_update self net
  else if String.eqb alert_type "zpool" then check_zpool self net
  else print_then_exit ("Unknown type: " ++ alert_type) 3.

(** ** Severities and the printed line *)

Inductive severity : Type :=
| OK
| WARNING
| CRITICAL
| UNKNOWN.

Definition severity_word (s : severity) : string :=
  match s with
  | OK => "OK"
  | WARNING => "WARNING"
  | CRITICAL => "CRITICAL"
  | UNKNOWN => "UNKNOWN"
  end.

Definition exit_code (s : severity) : Z :=
  match s with
  | OK => 0
  | WARNING => 1
  | CRITICAL => 2
  | UNKNOWN => 3
  end.

(** The bytes up to the first blank. *)
Fixpoint up_to_blank (s : string) : string :=
  match s with
  | EmptyString => EmptyString
  | String c s' =>
      if Ascii.eqb c " " then EmptyString else String c (up_to_blank s')
  end.

Fixpoint has_blank (s : string) : bool :=
  match s with
  | EmptyString => false
  | String c s' => Ascii.eqb c " " || has_blank s'
  end.

(** The first word on the output stream, when the model determines it: a
    printed line gives its first word; a line that ends in the text of an
    exception gives it when the fixed prefix already holds a blank; a
    traceback leaves the output stream empty. *)
Definition first_word (o : outcome) : option string :=
  match o with
  | Exit line _ => Some (up_to_blank line)
  | ExitExc prefix _ _ =>
      if has_blank prefix then Some (up_to_blank prefix) else None
  | Traceback _ => None
  end.

(** The process reports severity [s]: the word first on the line, the
    matching exit status. *)
Definition reports (o : outcome) (s : severity) : Prop :=
  first_word o = Some (severity_word s) /\ exit_status o = exit_code s.

(** The payload a well-behaved server sends. *)
Definition serving (payload : json) : network :=
  fun _ => Response true (Ok payload).

(** ** Well-formed payloads

    The records of the data model and the JSON a server sends for them. *)

Definition join (l : list string) : string := fold_right append "" l.

Record AlertRecord : Type := {
  level : string;
  dismissed : bool;
  formatted : string
}.

Definition alert_json (r : AlertRecord) : json :=
  JObj [ ("level", JStr (level r));
         ("dismissed", JBool (dismissed r));
         ("formatted", JStr (formatted r)) ].

Definition alerts_json (rs : list AlertRecord) : json :=
  JArr (map alert_json rs).

(** A record the loop does not skip. *)
Definition counted (ignore_dismissed : bool) (r : AlertRecord) : bool :=
  negb (ignore_dismissed && dismissed r).

Definition has_level (l : string) (r : AlertRecord) : bool :=
  String.eqb (level r) l.

Definition counted_at (ignore_dismissed : bool) (l : string)
  (rs : list AlertRecord) : list AlertRecord :=
  filter (fun r => counted ignore_dismissed r && has_level l r) rs.

Definition critical_fragment (r : AlertRecord) : string :=
  "- (C) " ++ replace_newlines (formatted r) ++ " ".

Definition warning_fragment (r : AlertRecord) : string :=
  "- (W) " ++ replace_newlines (formatted r) ++ " ".

Definition critical_fragments (ignore_dismissed : bool)
  (rs : list AlertRecord) : string :=
  join (map critical_fragment (counted_at ignore_dismissed "CRITICAL" rs)).

Definition warning_fragments (ignore_dismissed : bool)
  (rs : list AlertRecord) : string :=
  join (map warning_fragment (counted_at ignore_dismissed "WARNING" rs)).

Definition count {A} (l : list A) : N := N.of_nat (length l).

(** What the loop has done to its locals after the records [rs]. *)
Definition alerts_after (ignore_dismissed : bool) (st : Alerts.locals)
  (rs : list AlertRecord)
  : Alerts.locals :=
  {| Alerts.warn :=
       Alerts.warn st + count (counted_at ignore_dismissed "WARNING" rs);
     Alerts.crit :=
       Alerts.crit st + count (counted_at ignore_dismissed "CRITICAL" rs);
     Alerts.critial_messages :=
       Alerts.critial_messages st ++ critical_fragments ignore_dismissed rs;
     Alerts.warning_messages :=
       Alerts.warning_messages st ++ warning_fragments ignore_dismissed rs |}.

(** The texts [check_alerts] prints, those of the counted CRITICAL and
    WARNING records, hold no surrogate. *)
Definition alerts_printable (ignore_dismissed : bool)
  (rs : list AlertRecord) : Prop :=
  forall r, In r rs ->
            counted ignore_dismissed r = true ->
            level r = "CRITICAL" \/ level r = "WARNING" ->
            has_surrogate (formatted r) = false.

(** *** Pools *)

Record PoolRecord : Type := {
  name : string;
  status : string
}.

Definition pool_json (p : PoolRecord) : json :=
  JObj [ ("name", JStr (name p)); ("status", JStr (status p)) ].

Definition pools_json (ps : list PoolRecord) : json :=
  JArr (map pool_json ps).

(** The filter is ["all"] whatever the case of its letters, or the name of
    the pool, letter for letter. *)
Definition relevant (pool_filter : string) (p : PoolRecord) : bool :=
  String.eqb (lower pool_filter) "all" || String.eqb (name p) pool_filter.

Definition faulty (p : PoolRecord) : bool :=
  negb (String.eqb (status p) "ONLINE").

Definition relevant_pools (pool_filter : string) (ps : list PoolRecord)
  : list PoolRecord :=
  filter (relevant pool_filter) ps.

Definition faulty_pools (pool_filter : string) (ps : list PoolRecord)
  : list PoolRecord :=
  filter (fun p => relevant pool_filter p && faulty p) ps.

Definition pool_fragment (p : PoolRecord) : string :=
  "- (C) ZPool " ++ name p ++ "is " ++ status p.

Definition examined_entry (p : PoolRecord) : string := " " ++ name p.

Definition name_entry (p : PoolRecord) : string := name p ++ " ".

(** What the loop has done to its locals after the pools [ps]. *)
Definition pools_after (pool_filter : string) (st : Zpool.locals)
  (ps : list PoolRecord)
  : Zpool.locals :=
  {| Zpool.crit := Zpool.crit st + count (faulty_pools pool_filter ps);
     Zpool.critial_messages :=
       Zpool.critial_messages st
       ++ join (map pool_fragment (faulty_pools pool_filter ps));
     Zpool.zpools_examined :=
       Zpool.zpools_examined st
       ++ join (map examined_entry (relevant_pools pool_filter ps));
     Zpool.actual_zpool_count := Zpool.actual_zpool_count st + count ps;
     Zpool.all_pool_names :=
       Zpool.all_pool_names st ++ join (map name_entry ps) |}.

(** *** Replications *)

Record ReplicationRecord : Type := {
  repl_name : string;
  repl_state_code : string
}.

Definition repl_json (r : ReplicationRecord) : json :=
  JObj [ ("name", JStr (repl_name r));
         ("state", JObj [ ("state", JStr (repl_state_code r)) ]) ].

Definition repls_json (rs : list ReplicationRecord) : json :=
  JArr (map repl_json rs).

(** The state code is neither ["FINISHED"] nor ["RUNNING"]. *)
Definition problem (r : ReplicationRecord) : bool :=
  negb (String.eqb (repl_state_code r) "FINISHED")
  && negb (String.eqb (repl_state_code r) "RUNNING").

Definition problems (rs : list ReplicationRecord) : list ReplicationRecord :=
  filter problem rs.

Definition repl_fragment (r : ReplicationRecord) : string :=
  repl_name r ++ ": " ++ repl_state_code r.

Definition repl_entry (r : ReplicationRecord) : string :=
  " " ++ repl_name r ++ ": " ++ repl_state_code r.

Definition repls_after (st : Repl.locals) (rs : list ReplicationRecord)
  : Repl.locals :=
  {| Repl.errors := Repl.errors st + count (problems rs);
     Repl.msg := Repl.msg st ++ join (map repl_fragment (problems rs));
     Repl.replications_examined :=
       Repl.replications_examined st ++ join (map repl_entry rs) |}.

(** *** Update status *)

Definition update_json (status : string) : json :=
  JObj [ ("status", JStr status) ].

Definition update_tail : string :=
  ". Update may be required. Go to TrueNAS Dashboard -> System -> Update to check for newer version.".

Definition is_str (v : json) : bool :=
  match v with
  | JStr _ => true
  | _ => false
  end.

(** *** The network *)

(** The network as it fails: the request raises, or the body of the
    response does not decode. *)
Definition failing (e : exn) : network := fun _ => Raised e.

Definition garbled (e : exn) : network := fun _ => Response true (Raise e).

(** A configuration to run the theorems on. *)
Definition probe (ignore_dismissed : bool) (zpool_name : string) : Startup :=
  {| _hostname := "nas.example.org";
     _user := None;
     _secret := "1-abcdef";
     _use_ssl := true;
     _verify_cert := true;
     _ignore_dismissed_alerts := ignore_dismissed;
     _debug_logging := false;
     _zpool_name := zpool_name |}.

(** *** The request a check sends *)

(** The arguments [do_request] gives [requests.get] or [requests.post]. *)
Definition request_of (self : Startup) (resource : string)
  (requestType : RequestTypeEnum) : request :=
  {| req_type := requestType;
     req_url := _base_url self ++ "/" ++ resource ++ "/";
     req_auth :=
       match user_given self with
       | Some u => AuthPair u (_secret self)
       | None => AuthFalse
       end;
     req_headers :=
       match user_given self with
       | Some _ => []
       | None => [("Authorization", "Bearer " ++ _secret self)]
       end;
     req_verify := _verify_cert self |}.

(** What [do_request] makes of the answer of the library. *)
Definition answer (r : reply) : json + outcome :=
  match r with
  | Raised e =>
      inr (ExitExc
             "UNKNOWN - request failed - Error when contacting TrueNAS server: "
             e 3)
  | Response ok decoded =>
      if ok then
        match decoded with
        | Ok j => inl j
        | Raise e =>
            inr (ExitExc
                   "UNKNOWN - json failed to parse - Error when contacting TrueNAS server: "
                   e 3)
        end
      else inl JNull
  end.

(** The resource and the request type of each category, as the four
    checks name them. *)
Definition route (alert_type : string) : option (string * RequestTypeEnum) :=
  if String.eqb alert_type "alerts" then Some ("alert/list", GET_REQUEST)
  else if String.eqb alert_type "repl" then Some ("replication", GET_REQUEST)
  else if String.eqb alert_type "update"
       then Some ("update/check_available", POST_REQUEST)
  else if String.eqb alert_type "zpool" then Some ("pool", GET_REQUEST)
  else None.

(** *** Documents of any shape *)

(** The fields [check_alerts] reads of an alert. *)
Definition same_alert_fields (ignore_dismissed : bool) (j j' : json) : Prop :=
  (ignore_dismissed = true
   -> subscript j "dismissed" = subscript j' "dismissed")
  /\ subscript j "level" = subscript j' "level"
  /\ subscript j "formatted" = subscript j' "formatted".

(** What [check_zpool] reads of a pool: the name, and the status; of a
    pool the filter leaves out the status only has to be there. *)
Definition same_pool_reading (pool_filter : string) (j j' : json) : Prop :=
  subscript j "name" = subscript j' "name"
  /\ (subscript j "status" = subscript j' "status"
      \/ (Zpool.looking_for_all_pools pool_filter = false
          /\ exists n v v',
               subscript j "name" = Ok n
               /\ eq_str n pool_filter = false
               /\ subscript j "status" = Ok v
               /\ subscript j' "status" = Ok v')).

(** [repl['state']['state']] *)
Definition state_code_of (repl : json) : result json :=
  repl_state_obj <- subscript repl "state" ;;
  subscript repl_state_obj "state".

(** The fields [check_repl] reads of a replication. *)
Definition same_repl_fields (j j' : json) : Prop :=
  subscript j "name" = subscript j' "name"
  /\ state_code_of j = state_code_of j'.

(** A document that is no list and yet yields nothing when iterated. *)
Definition empty_container (v : json) : bool :=
  match v with
  | JObj [] => true
  | JStr EmptyString => true
  | _ => false
  end.

Definition is_array (v : json) : bool :=
  match v with
  | JArr _ => true
  | _ => false
  end.

Fixpoint has_newline (s : string) : bool :=
  match s with
  | EmptyString => false
  | String c s' => Ascii.eqb c newline || has_newline s'
  end.

(** The spellings of the filter that select every pool. *)
Definition all_spellings : list string :=
  [ "all"; "alL"; "aLl"; "aLL"; "All"; "AlL"; "ALl"; "ALL" ].

(** * Proofs *)

(** ** Lemmas on strings *)

Lemma append_nil_r (s : string) : s ++ "" = s.
Proof. induction s as [|c s IH]; simpl; [reflexivity | now rewrite IH]. Qed.

Lemma append_assoc (a b c : string) : (a ++ b) ++ c = a ++ (b ++ c).
Proof. induction a as [|x a IH]; simpl; [reflexivity | now rewrite IH]. Qed.

Lemma count_cons {A} (x : A) (l : list A) : count (x :: l) = (count l + 1)%N.
Proof. unfold count; simpl length; lia. Qed.

(** ** Lines that can be printed *)

Lemma has_surrogate_app (a b : string) :
  has_surrogate (a ++ b) = has_surrogate a || has_surrogate b.
Proof.
  induction a as [|c a IH]; [reflexivity|].
  cbn [append has_surrogate]. now rewrite IH, orb_assoc.
Qed.

Lemma has_surrogate_join (l : list string) :
  has_surrogate (join l) = existsb has_surrogate l.
Proof.
  induction l as [|x l IH]; [reflexivity|].
  cbn [join fold_right existsb]. now rewrite has_surrogate_app, <- IH.
Qed.

Lemma has_surrogate_replace_newlines (s : string) :
  has_surrogate (replace_newlines s) = has_surrogate s.
Proof.
  induction s as [|c s IH]; [reflexivity|].
  cbn [replace_newlines].
  destruct (Ascii.eqb c newline) eqn:E; cbn [has_surrogate].
  - apply Ascii.eqb_eq in E. subst c. rewrite IH. reflexivity.
  - now rewrite IH.
Qed.

Lemma has_surrogate_count (n : N) : has_surrogate (str_of_count n) = false.
Proof.
  unfold str_of_count. generalize (N.to_uint n). intro d.
  induction d; cbn [NilEmpty.string_of_uint has_surrogate]; try exact IHd;
    reflexivity.
Qed.

Lemma existsb_none {A} (f : A -> bool) (l : list A) :
  (forall x, In x l -> f x = false) -> existsb f l = false.
Proof.
  induction l as [|x l IH]; intro H; [reflexivity|].
  cbn [existsb]. rewrite (H x (or_introl eq_refl)). apply IH.
  intros y Hy. apply H. now right.
Qed.

Lemma existsb_perm {A} (f : A -> bool) (l l' : list A) :
  Permutation l l' -> existsb f l = existsb f l'.
Proof.
  induction 1 as [|x l l' P IH|x y l|l l' l'' P1 IH1 P2 IH2]; cbn [existsb].
  - reflexivity.
  - now rewrite IH.
  - destruct (f x), (f y); reflexivity.
  - now rewrite IH1.
Qed.

Lemma filter_perm {A} (f : A -> bool) (l l' : list A) :
  Permutation l l' -> Permutation (filter f l) (filter f l').
Proof.
  induction 1 as [|x l l' P IH|x y l|l l' l'' P1 IH1 P2 IH2]; cbn [filter].
  - constructor.
  - destruct (f x); [now constructor | exact IH].
  - destruct (f x), (f y); try apply Permutation_refl. apply perm_swap.
  - now apply Permutation_trans with (filter f l').
Qed.

(** A line without a surrogate is printed. *)
Lemma print_clean (line : string) (status : Z) :
  has_surrogate line = false -> print_then_exit line status = Exit line status.
Proof. unfold print_then_exit. now intros ->. Qed.

(** What is seen of a printed line: whether it can be encoded, its first
    word and the status. *)
Lemma print_seen (l l' : string) (status : Z) :
  has_surrogate l = has_surrogate l' ->
  up_to_blank l = up_to_blank l' ->
  first_word (print_then_exit l status) = first_word (print_then_exit l' status)
  /\ exit_status (print_then_exit l status)
     = exit_status (print_then_exit l' status).
Proof.
  unfold print_then_exit. intros -> Hw.
  destruct (has_surrogate l'); cbn [first_word exit_status];
    [split; reflexivity | now rewrite Hw].
Qed.

Lemma has_surrogate_concat (l : list string) :
  has_surrogate (String.concat "" l) = existsb has_surrogate l.
Proof.
  induction l as [|x l IH]; [reflexivity|].
  destruct l as [|y l].
  - cbn [String.concat existsb]. now rewrite orb_false_r.
  - change (String.concat "" (x :: y :: l))
      with (x ++ "" ++ String.concat "" (y :: l)).
    cbn [existsb] in *. now rewrite !has_surrogate_app, IH.
Qed.

Lemma has_surrogate_chars (s : string) :
  existsb has_surrogate (chars s) = has_surrogate s.
Proof.
  induction s as [|b s IH]; [reflexivity|].
  cbn [chars has_surrogate]. rewrite <- IH.
  destruct (chars s) as [|c cs].
  - cbn [existsb has_surrogate]. now rewrite !orb_false_r.
  - destruct (starts_with_continuation c); cbn [existsb has_surrogate];
      now rewrite ?orb_false_r, ?orb_assoc.
Qed.

Lemma isspace_printable (c : string) :
  isspace c = true -> has_surrogate c = false.
Proof.
  unfold isspace. intro H. apply existsb_exists in H as (w & Hw & E).
  apply String.eqb_eq in E. subst w.
  assert (F : forallb (fun w => negb (has_surrogate w)) whitespace = true)
    by reflexivity.
  rewrite forallb_forall in F. apply F in Hw. now destruct (has_surrogate c).
Qed.

Lemma has_surrogate_drop_space (l : list string) :
  existsb has_surrogate (drop_while isspace l) = existsb has_surrogate l.
Proof.
  induction l as [|x l IH]; [reflexivity|].
  cbn [drop_while]. destruct (isspace x) eqn:E; [|reflexivity].
  cbn [existsb]. now rewrite (isspace_printable _ E), IH.
Qed.

Lemma has_surrogate_strip (s : string) :
  has_surrogate (strip s) = has_surrogate s.
Proof.
  unfold strip, rstrip_chars, lstrip_chars.
  rewrite has_surrogate_concat.
  rewrite <- (existsb_perm _ _ _ (Permutation_rev _)).
  rewrite has_surrogate_drop_space.
  rewrite <- (existsb_perm _ _ _ (Permutation_rev _)).
  rewrite has_surrogate_drop_space. apply has_surrogate_chars.
Qed.

(** The counts of the lists a single step builds. *)
Ltac small_counts :=
  repeat match goal with
         | |- context [count (@nil ?A)] => change (count (@nil A)) with 0%N
         | |- context [count [?x]] => change (count [x]) with 1%N
         end.

(** Both sides are the same locals up to [n + 0] and [s ++ ""]. *)
Ltac same_locals :=
  rewrite ?N.add_0_r, ?append_nil_r, ?append_assoc; reflexivity.

(** ** check_alerts on well-formed payloads *)

Section AlertScan.

Variable ignore_dismissed : bool.

Let step := Alerts.loop_body ignore_dismissed.

Lemma alerts_body_ok (st : Alerts.locals) (r : AlertRecord) :
  step st (alert_json r) = Ok (alerts_after ignore_dismissed st [r]).
Proof.
  unfold step, Alerts.loop_body, alerts_after, critical_fragments,
    warning_fragments, counted_at, counted, alert_json.
  destruct st as [w c cm wm], r as [lv d f].
  cbn [subscript assoc String.eqb Ascii.eqb Bool.eqb bind eq_True
       replace_method filter level dismissed formatted
       Alerts.warn Alerts.crit Alerts.critial_messages
       Alerts.warning_messages eq_str has_level].
  destruct ignore_dismissed, d; cbn [andb negb bind];
    try (now rewrite !N.add_0_r, !append_nil_r);
    destruct (String.eqb lv "CRITICAL") eqn:EC;
    destruct (String.eqb lv "WARNING") eqn:EW;
    try (apply String.eqb_eq in EC; apply String.eqb_eq in EW; congruence);
    cbn [map join fold_right];
    small_counts;
    unfold critical_fragment, warning_fragment; cbn [formatted];
    same_locals.
Qed.

Lemma alerts_after_cons (st : Alerts.locals) (r : AlertRecord)
  (rs : list AlertRecord) :
  alerts_after ignore_dismissed st (r :: rs)
  = alerts_after ignore_dismissed (alerts_after ignore_dismissed st [r]) rs.
Proof.
  unfold alerts_after, critical_fragments, warning_fragments, counted_at.
  cbn [filter Alerts.warn Alerts.crit Alerts.critial_messages
       Alerts.warning_messages].
  destruct (counted ignore_dismissed r && has_level "CRITICAL" r);
    destruct (counted ignore_dismissed r && has_level "WARNING" r);
    cbn [map join fold_right];
    rewrite ?count_cons, ?append_nil_r, ?append_assoc;
    f_equal; unfold count; simpl length; lia.
Qed.

Lemma alerts_loop (rs : list AlertRecord) :
  forall st,
    for_each step (map alert_json rs) st
    = Ok (alerts_after ignore_dismissed st rs).
Proof.
  induction rs as [|r rs IH]; intro st.
  - destruct st; unfold alerts_after, critical_fragments, warning_fragments,
      count; simpl.
    now rewrite !N.add_0_r, !append_nil_r.
  - cbn [map for_each]. rewrite alerts_body_ok. cbn [bind].
    rewrite IH. now rewrite <- alerts_after_cons.
Qed.

End AlertScan.

(** A server that answers with [payload] hands it to the classifier. *)
Lemma get_request_serving (self : Startup) (payload : json)
  (resource : string) :
  get_request self (serving payload) resource = inl payload.
Proof. reflexivity. Qed.

Lemma post_request_serving (self : Startup) (payload : json)
  (resource : string) :
  post_request self (serving payload) resource = inl payload.
Proof. reflexivity. Qed.

Lemma check_alerts_serving (self : Startup) (payload : json) :
  check_alerts self (serving payload)
  = Alerts.classify (_ignore_dismissed_alerts self) payload.
Proof. reflexivity. Qed.

Lemma alerts_scan_ok (ig : bool) (rs : list AlertRecord) :
  Alerts.scan ig (alerts_json rs) = Ok (alerts_after ig Alerts.initial rs).
Proof. unfold Alerts.scan, alerts_json. cbn [iterate bind]. apply alerts_loop. Qed.

Lemma count_pos_of_In {A} (x : A) (l : list A) : In x l -> (0 < count l)%N.
Proof. destruct l; [intros [] | intros _; unfold count; simpl length; lia]. Qed.

Lemma counted_at_app (ig : bool) (l : string) (xs ys : list AlertRecord) :
  counted_at ig l (xs ++ ys) = (counted_at ig l xs ++ counted_at ig l ys)%list.
Proof. apply filter_app. Qed.

Lemma count_app {A} (xs ys : list A) :
  count (xs ++ ys)%list = (count xs + count ys)%N.
Proof. unfold count. rewrite length_app. lia. Qed.

(** The outcome of the classifier once a counted record is critical. *)
Lemma alerts_critical_outcome (ig : bool) (rs : list AlertRecord) :
  (exists r, In r rs /\ counted ig r = true /\ level r = "CRITICAL") ->
  Alerts.classify ig (alerts_json rs)
  = print_then_exit
      ("CRITICAL " ++ critical_fragments ig rs ++ warning_fragments ig rs) 2.
Proof.
  intros (r & Hin & Hc & Hl).
  unfold Alerts.classify. rewrite alerts_scan_ok.
  unfold Alerts.report, alerts_after.
  cbn [Alerts.crit Alerts.warn Alerts.critial_messages
       Alerts.warning_messages Alerts.initial].
  assert (Hpos : (0 < count (counted_at ig "CRITICAL" rs))%N).
  { apply (count_pos_of_In r _). unfold counted_at. apply filter_In.
    split; [exact Hin|]. unfold has_level. rewrite Hc, Hl. reflexivity. }
  rewrite N.add_0_l. apply N.ltb_lt in Hpos. rewrite Hpos.
  reflexivity.
Qed.

Lemma counted_at_In (ig : bool) (l : string) (rs : list AlertRecord)
  (r : AlertRecord) :
  In r (counted_at ig l rs) ->
  In r rs /\ counted ig r = true /\ level r = l.
Proof.
  unfold counted_at. intro H. apply filter_In in H as [Hin H].
  apply andb_prop in H as [Hc Hl]. apply String.eqb_eq in Hl. auto.
Qed.

Lemma critical_fragments_printable (ig : bool) (rs : list AlertRecord) :
  alerts_printable ig rs ->
  has_surrogate (critical_fragments ig rs) = false.
Proof.
  intro H. unfold critical_fragments. rewrite has_surrogate_join.
  apply existsb_none. intros s Hs.
  apply in_map_iff in Hs as (r & <- & Hr).
  apply counted_at_In in Hr as (Hin & Hc & Hl).
  unfold critical_fragment.
  rewrite !has_surrogate_app, has_surrogate_replace_newlines.
  now rewrite (H r Hin Hc (or_introl Hl)).
Qed.

Lemma warning_fragments_printable (ig : bool) (rs : list AlertRecord) :
  alerts_printable ig rs ->
  has_surrogate (warning_fragments ig rs) = false.
Proof.
  intro H. unfold warning_fragments. rewrite has_surrogate_join.
  apply existsb_none. intros s Hs.
  apply in_map_iff in Hs as (r & <- & Hr).
  apply counted_at_In in Hr as (Hin & Hc & Hl).
  unfold warning_fragment.
  rewrite !has_surrogate_app, has_surrogate_replace_newlines.
  now rewrite (H r Hin Hc (or_intror Hl)).
Qed.

(** C1, as the claim states it, fails on a critical alert whose text holds
    a surrogate: the record is counted and critical, [print] raises on the
    line, nothing is printed and the process leaves with 1. *)
Lemma critical_alert_dominates_counterexample :
  (exists r,
      In r [ {| level := "CRITICAL"; dismissed := false;
                formatted := surrogate 0 |} ]
      /\ counted false r = true /\ level r = "CRITICAL")
  /\ check_alerts (probe false "all")
       (serving (alerts_json [ {| level := "CRITICAL"; dismissed := false;
                                  formatted := surrogate 0 |} ]))
     = Traceback UnicodeEncodeError
  /\ ~ reports (check_alerts (probe false "all")
                  (serving (alerts_json
                              [ {| level := "CRITICAL"; dismissed := false;
                                   formatted := surrogate 0 |} ])))
               CRITICAL.
Proof.
  split; [|split].
  - eexists. split; [left; reflexivity | split; reflexivity].
  - reflexivity.
  - intros [H _]. discriminate H.
Qed.

(** C1, amended: when some alert record the loop does not skip (not
    dismissed, or dismissed alerts are not ignored) has level CRITICAL, and
    the texts of the counted CRITICAL and WARNING records hold no
    surrogate, [check_alerts] prints CRITICAL and exits with 2 whatever the
    WARNING records are, and the line is the word followed by every
    critical fragment and then every warning fragment. *)
Theorem critical_alert_dominates (self : Startup) (rs : list AlertRecord) :
  (exists r, In r rs
             /\ counted (_ignore_dismissed_alerts self) r = true
             /\ level r = "CRITICAL") ->
  alerts_printable (_ignore_dismissed_alerts self) rs ->
  check_alerts self (serving (alerts_json rs))
  = Exit ("CRITICAL "
          ++ critical_fragments (_ignore_dismissed_alerts self) rs
          ++ warning_fragments (_ignore_dismissed_alerts self) rs) 2
  /\ reports (check_alerts self (serving (alerts_json rs))) CRITICAL.
Proof.
  intros H Hp. rewrite check_alerts_serving, (alerts_critical_outcome _ _ H).
  rewrite print_clean.
  - split; [reflexivity | split; reflexivity].
  - rewrite !has_surrogate_app, critical_fragments_printable,
      warning_fragments_printable by exact Hp.
    reflexivity.
Qed.

Lemma critical_alert_dominates_witness :
  check_alerts (probe false "all")
    (serving (alerts_json
                [ {| level := "WARNING"; dismissed := false;
                     formatted := "Pool tank is 81% full" |};
                  {| level := "CRITICAL"; dismissed := true;
                     formatted := "Device /dev/ada1 has failed" |} ]))
  = Exit "CRITICAL - (C) Device /dev/ada1 has failed - (W) Pool tank is 81% full " 2.
Proof.
  refine (eq_trans (proj1 (critical_alert_dominates (probe false "all")
            [ {| level := "WARNING"; dismissed := false;
                 formatted := "Pool tank is 81% full" |};
              {| level := "CRITICAL"; dismissed := true;
                 formatted := "Device /dev/ada1 has failed" |} ] _ _)) _).
  - exists {| level := "CRITICAL"; dismissed := true;
              formatted := "Device /dev/ada1 has failed" |}.
    simpl. auto.
  - intros r [<- | [<- | []]] _ _; reflexivity.
  - reflexivity.
Defined.

(** C2: an alert record with [dismissed] true and level CRITICAL.  When
    dismissed alerts are ignored, the loop ends with the same counts and
    messages as without the record and the process ends the same way; when
    they are not ignored, the record adds one to the critical count, and
    the check goes on to print the CRITICAL line and exit with 2. *)
Theorem dismissed_critical_alert (self : Startup)
  (before after : list AlertRecord) (r : AlertRecord) :
  dismissed r = true ->
  level r = "CRITICAL" ->
  (_ignore_dismissed_alerts self = true ->
     Alerts.scan true (alerts_json (before ++ r :: after))
     = Alerts.scan true (alerts_json (before ++ after))
     /\ check_alerts self (serving (alerts_json (before ++ r :: after)))
        = check_alerts self (serving (alerts_json (before ++ after))))
  /\
  (_ignore_dismissed_alerts self = false ->
     exists st st',
       Alerts.scan false (alerts_json (before ++ after)) = Ok st
       /\ Alerts.scan false (alerts_json (before ++ r :: after)) = Ok st'
       /\ Alerts.crit st' = (Alerts.crit st + 1)%N
       /\ Alerts.warn st' = Alerts.warn st
       /\ check_alerts self (serving (alerts_json (before ++ r :: after)))
          = print_then_exit
              ("CRITICAL "
               ++ critical_fragments false (before ++ r :: after)
               ++ warning_fragments false (before ++ r :: after)) 2).
Proof.
  intros Hd Hl. split; intro Hig.
  - assert (E : Alerts.scan true (alerts_json (before ++ r :: after))
                = Alerts.scan true (alerts_json (before ++ after))).
    { rewrite !alerts_scan_ok. f_equal.
      unfold alerts_after, critical_fragments, warning_fragments.
      assert (skip : forall l, counted_at true l (r :: after)
                               = counted_at true l after).
      { intro l. unfold counted_at; cbn [filter]. unfold counted.
        rewrite Hd. reflexivity. }
      now rewrite !counted_at_app, !skip. }
    split; [exact E|].
    rewrite !check_alerts_serving, Hig. unfold Alerts.classify.
    now rewrite E.
  - exists (alerts_after false Alerts.initial (before ++ after)),
           (alerts_after false Alerts.initial (before ++ r :: after)).
    split; [apply alerts_scan_ok|]. split; [apply alerts_scan_ok|].
    assert (HC : counted_at false "CRITICAL" (r :: after)
                 = r :: counted_at false "CRITICAL" after).
    { unfold counted_at; cbn [filter]. unfold counted, has_level.
      rewrite Hl. reflexivity. }
    assert (HW : counted_at false "WARNING" (r :: after)
                 = counted_at false "WARNING" after).
    { unfold counted_at; cbn [filter]. unfold counted, has_level.
      rewrite Hl. reflexivity. }
    unfold alerts_after. cbn [Alerts.crit Alerts.warn Alerts.initial].
    rewrite !counted_at_app, HC, HW, !count_app, count_cons.
    split; [lia|]. split; [reflexivity|].
    rewrite check_alerts_serving, Hig. apply alerts_critical_outcome.
    exists r. split; [apply in_elt|]. now split.
Qed.

Lemma dismissed_critical_alert_witness :
  check_alerts (probe true "all")
    (serving (alerts_json
                ([] ++ {| level := "CRITICAL"; dismissed := true;
                          formatted := "Device /dev/ada1 has failed" |}
                       :: [])))
  = check_alerts (probe true "all") (serving (alerts_json ([] ++ []))).
Proof.
  exact (proj2 (proj1 (dismissed_critical_alert (probe true "all") [] []
                         {| level := "CRITICAL"; dismissed := true;
                            formatted := "Device /dev/ada1 has failed" |}
                         eq_refl eq_refl) eq_refl)).
Defined.

(** ** check_zpool on well-formed payloads *)

Section PoolScan.

Variable pool_filter : string.

Let step := Zpool.loop_body pool_filter.

Lemma pools_body_ok (st : Zpool.locals) (p : PoolRecord) :
  step st (pool_json p) = Ok (pools_after pool_filter st [p]).
Proof.
  unfold step, Zpool.loop_body, pools_after, faulty_pools, relevant_pools,
    relevant, faulty, pool_json, Zpool.looking_for_all_pools.
  destruct st as [c cm ze n names], p as [nm stt].
  cbn [subscript assoc String.eqb Ascii.eqb Bool.eqb bind add_str str_add
       filter name status eq_str
       Zpool.crit Zpool.critial_messages Zpool.zpools_examined
       Zpool.actual_zpool_count Zpool.all_pool_names].
  destruct (String.eqb (lower pool_filter) "all" || String.eqb nm pool_filter);
    cbn [andb bind];
    [destruct (negb (String.eqb stt "ONLINE")); cbn [bind] |];
    cbn [map join fold_right];
    small_counts;
    unfold pool_fragment, examined_entry, name_entry; cbn [name status];
    same_locals.
Qed.

Lemma pools_after_cons (st : Zpool.locals) (p : PoolRecord)
  (ps : list PoolRecord) :
  pools_after pool_filter st (p :: ps)
  = pools_after pool_filter (pools_after pool_filter st [p]) ps.
Proof.
  unfold pools_after, faulty_pools, relevant_pools.
  cbn [filter Zpool.crit Zpool.critial_messages Zpool.zpools_examined
       Zpool.actual_zpool_count Zpool.all_pool_names].
  destruct (relevant pool_filter p); cbn [andb];
    [destruct (faulty p) |];
    cbn [map join fold_right];
    rewrite ?count_cons, ?append_nil_r, ?append_assoc;
    f_equal; unfold count; simpl length; lia.
Qed.

Lemma pools_loop (ps : list PoolRecord) :
  forall st,
    for_each step (map pool_json ps) st = Ok (pools_after pool_filter st ps).
Proof.
  induction ps as [|p ps IH]; intro st.
  - destruct st; unfold pools_after, count; simpl.
    now rewrite !N.add_0_r, !append_nil_r.
  - cbn [map for_each]. rewrite pools_body_ok. cbn [bind].
    rewrite IH. now rewrite <- pools_after_cons.
Qed.

Lemma pools_scan_ok (ps : list PoolRecord) :
  Zpool.scan pool_filter (pools_json ps)
  = Ok (pools_after pool_filter Zpool.initial ps).
Proof. unfold Zpool.scan, pools_json. cbn [iterate bind]. apply pools_loop. Qed.

End PoolScan.

Lemma check_zpool_serving (self : Startup) (payload : json) :
  check_zpool self (serving payload)
  = Zpool.classify (_zpool_name self) payload.
Proof. reflexivity. Qed.

Lemma count_pos {A} (l : list A) : l <> [] -> (0 <? count l)%N = true.
Proof.
  destruct l as [|x l]; [congruence | intros _].
  apply N.ltb_lt. unfold count; simpl length; lia.
Qed.

Lemma no_relevant_pool (pool_filter : string) (ps : list PoolRecord) :
  Zpool.looking_for_all_pools pool_filter = false ->
  (forall p, In p ps -> name p <> pool_filter) ->
  relevant_pools pool_filter ps = [] /\ faulty_pools pool_filter ps = [].
Proof.
  unfold Zpool.looking_for_all_pools. intros Hall Hnone.
  assert (R : forall p, In p ps -> relevant pool_filter p = false).
  { intros p Hp. unfold relevant. rewrite Hall. cbn [orb].
    apply String.eqb_neq. now apply Hnone. }
  unfold relevant_pools, faulty_pools.
  induction ps as [|p ps IH]; [now split|].
  cbn [filter]. rewrite (R p (or_introl eq_refl)). cbn [andb].
  apply IH; intros q Hq; [apply Hnone | apply R]; now right.
Qed.

Lemma faulty_among_relevant (pool_filter : string) (ps : list PoolRecord) :
  faulty_pools pool_filter ps = filter faulty (relevant_pools pool_filter ps).
Proof.
  unfold faulty_pools, relevant_pools.
  induction ps as [|p ps IH]; [reflexivity|].
  cbn [filter]. destruct (relevant pool_filter p); cbn [andb filter];
    [destruct (faulty p); now rewrite IH | exact IH].
Qed.

(** The outcome of the classifier on a well-formed list. *)
Lemma zpool_classify_closed (pool_filter : string) (ps : list PoolRecord) :
  Zpool.classify pool_filter (pools_json ps)
  = (if (0 <? count (faulty_pools pool_filter ps))%N
     then print_then_exit
            ("CRITICAL "
             ++ join (map pool_fragment (faulty_pools pool_filter ps))) 2
     else if (0 <? count ps)%N
             && negb (Zpool.looking_for_all_pools pool_filter)
             && (count (relevant_pools pool_filter ps) =? 0)%N
     then print_then_exit
            ("CRITICAL "
             ++ Zpool.no_match_message pool_filter (count ps)
                  (join (map name_entry ps))) 2
     else if (count ps =? 0)%N && Zpool.looking_for_all_pools pool_filter
     then Exit "OK - No problem Zpools. Zpools examined: (None - No Zpools found)" 0
     else print_then_exit
            ("OK - No problem Zpools. Zpools examined: "
             ++ join (map examined_entry (relevant_pools pool_filter ps)))
            0).
Proof.
  unfold Zpool.classify. rewrite pools_scan_ok.
  unfold Zpool.report, pools_after.
  cbn [Zpool.crit Zpool.critial_messages Zpool.zpools_examined
       Zpool.actual_zpool_count Zpool.all_pool_names Zpool.initial].
  rewrite !N.add_0_l. cbn [append].
  rewrite faulty_among_relevant.
  destruct ps as [|p0 ps0].
  - cbn [relevant_pools filter map join fold_right].
    change (count (@nil PoolRecord)) with 0%N.
    destruct (Zpool.looking_for_all_pools pool_filter); reflexivity.
  - set (ps := p0 :: ps0).
    assert (Hpos : (0 <? count ps)%N = true) by (apply count_pos; discriminate).
    assert (Hz : (count ps =? 0)%N = false)
      by (apply N.eqb_neq; apply N.ltb_lt in Hpos; lia).
    rewrite Hpos, Hz.
    destruct (relevant_pools pool_filter ps) as [|r rl].
    + cbn [filter map join fold_right].
      change (count (@nil PoolRecord)) with 0%N.
      destruct (Zpool.looking_for_all_pools pool_filter);
        cbn [String.eqb andb negb N.eqb N.ltb N.compare];
        rewrite ?append_nil_r; reflexivity.
    + assert (Hr : (count (r :: rl) =? 0)%N = false)
        by (apply N.eqb_neq; unfold count; simpl length; lia).
      rewrite Hr, !andb_false_r.
      cbn [map join fold_right]. unfold examined_entry at 1 3.
      cbn [append String.eqb andb].
      destruct (0 <? count (filter faulty (r :: rl)))%N eqn:Hc.
      * apply N.ltb_lt in Hc.
        replace (count (filter faulty (r :: rl)) =? 0)%N with false
          by (symmetry; apply N.eqb_neq; lia).
        rewrite ?andb_false_r, ?append_nil_r. reflexivity.
      * apply N.ltb_ge in Hc.
        replace (count (filter faulty (r :: rl)) =? 0)%N with true
          by (symmetry; apply N.eqb_eq; lia).
        cbn [andb]. reflexivity.
Qed.

(** C3: with the filter ["all"] (in any letter case) and no pool at all,
    [check_zpool] prints OK with a line that says no pools were found, and
    exits with 0. *)
Theorem all_filter_no_pools_ok (self : Startup) :
  Zpool.looking_for_all_pools (_zpool_name self) = true ->
  check_zpool self (serving (pools_json []))
  = Exit "OK - No problem Zpools. Zpools examined: (None - No Zpools found)" 0
  /\ reports (check_zpool self (serving (pools_json []))) OK.
Proof.
  intro Hall. rewrite check_zpool_serving.
  unfold Zpool.classify, pools_json. cbn [map Zpool.scan iterate bind for_each].
  unfold Zpool.report. rewrite Hall.
  split; [reflexivity | split; reflexivity].
Qed.

Lemma all_filter_no_pools_ok_witness :
  check_zpool (probe false "ALL") (serving (pools_json []))
  = Exit "OK - No problem Zpools. Zpools examined: (None - No Zpools found)" 0.
Proof.
  exact (proj1 (all_filter_no_pools_ok (probe false "ALL") eq_refl)).
Defined.

(** C10: with a named filter and no pool at all, [check_zpool] prints OK
    with an empty list of examined pools and exits with 0; the
    filter-miss verdict asks for a positive pool count. *)
Theorem named_filter_no_pools_ok (self : Startup) :
  Zpool.looking_for_all_pools (_zpool_name self) = false ->
  check_zpool self (serving (pools_json []))
  = Exit "OK - No problem Zpools. Zpools examined: " 0
  /\ reports (check_zpool self (serving (pools_json []))) OK.
Proof.
  intro Hall. rewrite check_zpool_serving.
  unfold Zpool.classify, pools_json. cbn [map Zpool.scan iterate bind for_each].
  unfold Zpool.report. rewrite Hall.
  split; [reflexivity | split; reflexivity].
Qed.

Lemma named_filter_no_pools_ok_witness :
  check_zpool (probe false "tank") (serving (pools_json []))
  = Exit "OK - No problem Zpools. Zpools examined: " 0.
Proof.
  exact (proj1 (named_filter_no_pools_ok (probe false "tank") eq_refl)).
Defined.

(** C4, as the claim states it, fails on the empty pool list: the filter
    is a name, no pool carries it, nothing critical was recorded, and the
    check reports OK.  It also fails on a list whose only pool has a name
    with a surrogate: [print] raises on the line that lists the names. *)
Lemma named_filter_miss_counterexample :
  Zpool.looking_for_all_pools (_zpool_name (probe false "tank")) = false
  /\ (forall p, In p [] -> name p <> _zpool_name (probe false "tank"))
  /\ faulty_pools (_zpool_name (probe false "tank")) [] = []
  /\ ~ reports (check_zpool (probe false "tank") (serving (pools_json [])))
               CRITICAL
  /\ (forall p, In p [ {| name := surrogate 0; status := "ONLINE" |} ] ->
                name p <> _zpool_name (probe false "tank"))
  /\ check_zpool (probe false "tank")
       (serving (pools_json
                   [ {| name := surrogate 0; status := "ONLINE" |} ]))
     = Traceback UnicodeEncodeError.
Proof.
  split; [reflexivity|]. split; [intros p []|]. split; [reflexivity|].
  split; [intros [_ H]; discriminate H|].
  split; [intros p [<- | []]; discriminate | reflexivity].
Qed.

Lemma names_printable (ps : list PoolRecord) :
  (forall p, In p ps -> has_surrogate (name p) = false) ->
  has_surrogate (join (map name_entry ps)) = false.
Proof.
  intro H. rewrite has_surrogate_join. apply existsb_none.
  intros s Hs. apply in_map_iff in Hs as (p & <- & Hp).
  unfold name_entry. now rewrite has_surrogate_app, (H p Hp).
Qed.

(** C4, amended: with a named filter, at least one pool, no pool of that
    exact name, and no surrogate in the filter or in a pool name,
    [check_zpool] prints CRITICAL with a line that names the filter, the
    number of pools and the names of the pools, and exits with 2. *)
Theorem named_filter_miss_critical (self : Startup) (ps : list PoolRecord) :
  Zpool.looking_for_all_pools (_zpool_name self) = false ->
  ps <> [] ->
  (forall p, In p ps -> name p <> _zpool_name self) ->
  has_surrogate (_zpool_name self) = false ->
  (forall p, In p ps -> has_surrogate (name p) = false) ->
  check_zpool self (serving (pools_json ps))
  = Exit ("CRITICAL - No Zpools found matching " ++ _zpool_name self
          ++ " out of " ++ str_of_count (count ps) ++ " pools ("
          ++ join (map name_entry ps) ++ ")") 2
  /\ reports (check_zpool self (serving (pools_json ps))) CRITICAL.
Proof.
  intros Hall Hne Hnone Hf Hn.
  destruct (no_relevant_pool _ ps Hall Hnone) as [HR HF].
  rewrite check_zpool_serving, zpool_classify_closed, HR, HF, Hall.
  change (count (@nil PoolRecord)) with 0%N.
  rewrite (count_pos _ Hne). cbn [N.ltb N.compare N.eqb andb negb].
  unfold Zpool.no_match_message. rewrite print_clean.
  - split; [reflexivity | split; reflexivity].
  - rewrite !has_surrogate_app, Hf, has_surrogate_count,
      (names_printable _ Hn).
    reflexivity.
Qed.

Lemma named_filter_miss_critical_witness :
  check_zpool (probe false "tank")
    (serving (pools_json [ {| name := "rpool"; status := "ONLINE" |} ]))
  = Exit "CRITICAL - No Zpools found matching tank out of 1 pools (rpool )" 2.
Proof.
  refine (eq_trans (proj1 (named_filter_miss_critical (probe false "tank")
            [ {| name := "rpool"; status := "ONLINE" |} ]
            eq_refl _ _ eq_refl _)) _).
  - discriminate.
  - intros p [<- | []]. discriminate.
  - intros p [<- | []]. reflexivity.
  - reflexivity.
Defined.

(** C5: a pool is relevant when the filter is ["all"] in any letter case
    or equals the pool's name exactly.  The loop goes through every pool:
    it ends with one CRITICAL fragment, naming pool and status, for each
    relevant pool whose status is not ["ONLINE"] and with none for the
    others, and when there is such a pool [check_zpool] goes on to print
    CRITICAL with these fragments and exit with 2. *)
Theorem relevant_faulty_pools_reported (self : Startup)
  (ps : list PoolRecord) :
  (exists st,
      Zpool.scan (_zpool_name self) (pools_json ps) = Ok st
      /\ Zpool.crit st = count (faulty_pools (_zpool_name self) ps)
      /\ Zpool.critial_messages st
         = join (map pool_fragment (faulty_pools (_zpool_name self) ps))
      /\ Zpool.zpools_examined st
         = join (map examined_entry (relevant_pools (_zpool_name self) ps))
      /\ Zpool.actual_zpool_count st = count ps)
  /\ (faulty_pools (_zpool_name self) ps <> [] ->
      check_zpool self (serving (pools_json ps))
      = print_then_exit
          ("CRITICAL "
           ++ join (map pool_fragment (faulty_pools (_zpool_name self) ps)))
          2).
Proof.
  split.
  - exists (pools_after (_zpool_name self) Zpool.initial ps).
    split; [apply pools_scan_ok|].
    unfold pools_after.
    cbn [Zpool.crit Zpool.critial_messages Zpool.zpools_examined
         Zpool.actual_zpool_count Zpool.all_pool_names Zpool.initial append].
    rewrite !N.add_0_l. repeat split; reflexivity.
  - intro Hne. rewrite check_zpool_serving, zpool_classify_closed.
    now rewrite (count_pos _ Hne).
Qed.

Lemma relevant_faulty_pools_reported_witness :
  check_zpool (probe false "all")
    (serving (pools_json [ {| name := "tank"; status := "ONLINE" |};
                           {| name := "backup"; status := "DEGRADED" |} ]))
  = Exit "CRITICAL - (C) ZPool backupis DEGRADED" 2.
Proof.
  refine (eq_trans (proj2 (relevant_faulty_pools_reported
            (probe false "all")
            [ {| name := "tank"; status := "ONLINE" |};
              {| name := "backup"; status := "DEGRADED" |} ]) _) _).
  - discriminate.
  - reflexivity.
Defined.

(** ** check_repl on well-formed payloads *)

Lemma repl_body_ok (st : Repl.locals) (r : ReplicationRecord) :
  Repl.loop_body st (repl_json r) = Ok (repls_after st [r]).
Proof.
  unfold Repl.loop_body, repls_after, problems, problem, repl_json.
  destruct st as [n m ex], r as [nm code].
  cbn [subscript assoc String.eqb Ascii.eqb Bool.eqb bind str_add eq_str
       filter repl_name repl_state_code
       Repl.errors Repl.msg Repl.replications_examined].
  destruct (negb (String.eqb code "FINISHED")
            && negb (String.eqb code "RUNNING"));
    cbn [bind map join fold_right];
    small_counts;
    unfold repl_fragment, repl_entry; cbn [repl_name repl_state_code];
    same_locals.
Qed.

Lemma repls_after_cons (st : Repl.locals) (r : ReplicationRecord)
  (rs : list ReplicationRecord) :
  repls_after st (r :: rs) = repls_after (repls_after st [r]) rs.
Proof.
  unfold repls_after, problems.
  cbn [filter Repl.errors Repl.msg Repl.replications_examined].
  destruct (problem r);
    cbn [map join fold_right];
    rewrite ?count_cons, ?append_nil_r, ?append_assoc;
    f_equal; unfold count; simpl length; lia.
Qed.

Lemma repls_loop (rs : list ReplicationRecord) :
  forall st,
    for_each Repl.loop_body (map repl_json rs) st = Ok (repls_after st rs).
Proof.
  induction rs as [|r rs IH]; intro st.
  - destruct st; unfold repls_after, count; simpl.
    now rewrite !N.add_0_r, !append_nil_r.
  - cbn [map for_each]. rewrite repl_body_ok. cbn [bind].
    rewrite IH. now rewrite <- repls_after_cons.
Qed.

Lemma check_repl_serving (self : Startup) (payload : json) :
  check_repl self (serving payload) = Repl.classify payload.
Proof. reflexivity. Qed.

(** The outcome of the classifier on a well-formed list. *)
Lemma repl_classify_closed (rs : list ReplicationRecord) :
  Repl.classify (repls_json rs)
  = (if (0 <? count (problems rs))%N
     then print_then_exit
            ("WARNING - There are " ++ str_of_count (count (problems rs))
             ++ " replication errors ["
             ++ strip (join (map repl_fragment (problems rs)))
             ++ "]. Go to Storage > Replication Tasks > View Replication Tasks in TrueNAS for more details.")
            1
     else print_then_exit
            ("OK - No replication errors. Replications examined: "
             ++ join (map repl_entry rs))
            0).
Proof.
  unfold Repl.classify, Repl.scan, repls_json.
  cbn [iterate bind]. rewrite repls_loop.
  unfold Repl.report, repls_after.
  cbn [Repl.errors Repl.msg Repl.replications_examined Repl.initial append].
  now rewrite N.add_0_l.
Qed.





(** ** check_update on well-formed payloads *)

Lemma check_update_serving (self : Startup) (payload : json) :
  check_update self (serving payload) = Update.classify payload.
Proof. reflexivity. Qed.

Lemma in_table (table : list (string * string)) (status : string) :
  existsb (String.eqb status) (map fst table)
  = match Update.description table status with
    | Some _ => true
    | None => false
    end.
Proof.
  induction table as [|[k d] table IH]; [reflexivity|].
  cbn [map fst existsb Update.description].
  destruct (String.eqb status k); [reflexivity | exact IH].
Qed.

Lemma description_printable (status d : string) :
  Update.description Update.updateCheckResultDict status = Some d ->
  has_surrogate d = false.
Proof.
  unfold Update.updateCheckResultDict. cbn [Update.description].
  repeat match goal with
         | |- context [String.eqb status ?k] => destruct (String.eqb status k)
         end;
    intro H; try discriminate H; injection H as <-; reflexivity.
Qed.

(** The outcome of the classifier on a status string. *)
Lemma update_classify_closed (status : string) :
  Update.classify (update_json status)
  = (if String.eqb status "UNAVAILABLE"
     then Exit "OK - Update Status: UNAVAILABLE (no update available)" 0
     else match Update.description Update.updateCheckResultDict status with
          | Some d =>
              print_then_exit
                ("WARNING - Update Status: " ++ status ++ " (" ++ d ++ ")"
                 ++ update_tail) 1
          | None =>
              print_then_exit
                ("WARNING - Unknown Update Status: " ++ status
                 ++ update_tail) 1
          end).
Proof.
  unfold Update.classify, Update.extract, update_json.
  cbn [subscript assoc String.eqb Ascii.eqb Bool.eqb bind eq_str].
  destruct (String.eqb status "UNAVAILABLE") eqn:EU.
  - apply String.eqb_eq in EU. subst status. reflexivity.
  - cbn [negb]. unfold Update.report.
    cbn [in_keys bind str_add Update.dict_subscript].
    rewrite in_table.
    destruct (Update.description Update.updateCheckResultDict status);
      cbn [bind append]; unfold update_tail;
      rewrite ?append_assoc; reflexivity.
Qed.

(** C7, as the claim states it, fails on a status that holds a surrogate:
    it is not ["UNAVAILABLE"], and [print] raises on the line that names
    it, so that no WARNING line is printed. *)
Lemma update_verdict_counterexample :
  surrogate 0 <> "UNAVAILABLE"
  /\ check_update (probe false "all") (serving (update_json (surrogate 0)))
     = Traceback UnicodeEncodeError
  /\ ~ reports (check_update (probe false "all")
                  (serving (update_json (surrogate 0))))
               WARNING.
Proof.
  split; [discriminate|]. split; [reflexivity|].
  intros [H _]. discriminate H.
Qed.

(** C7, amended: for a status string that holds no surrogate,
    [check_update] prints OK and exits with 0 exactly when the status is
    ["UNAVAILABLE"]; for every other such string it prints WARNING and
    exits with 1, never 2, with the description of the table when the
    status is in it and a line naming the unknown status otherwise. *)
Theorem update_verdict (self : Startup) (status : string) :
  has_surrogate status = false ->
  check_update self (serving (update_json status))
  = (if String.eqb status "UNAVAILABLE"
     then Exit "OK - Update Status: UNAVAILABLE (no update available)" 0
     else match Update.description Update.updateCheckResultDict status with
          | Some d =>
              Exit ("WARNING - Update Status: " ++ status ++ " (" ++ d ++ ")"
                    ++ update_tail) 1
          | None =>
              Exit ("WARNING - Unknown Update Status: " ++ status
                    ++ update_tail) 1
          end)
  /\ reports (check_update self (serving (update_json status)))
             (if String.eqb status "UNAVAILABLE" then OK else WARNING)
  /\ (reports (check_update self (serving (update_json status))) OK
      <-> status = "UNAVAILABLE").
Proof.
  intro Hs. rewrite check_update_serving, update_classify_closed.
  destruct (String.eqb status "UNAVAILABLE") eqn:EU.
  - apply String.eqb_eq in EU.
    split; [reflexivity|]. split; [split; reflexivity|].
    split; [intros _; exact EU | intros _; split; reflexivity].
  - assert (EU' : status <> "UNAVAILABLE") by now apply String.eqb_neq.
    destruct (Update.description Update.updateCheckResultDict status)
      as [d|] eqn:D; rewrite print_clean.
    + split; [reflexivity|]. split; [split; reflexivity|].
      split; [intros [H _]; discriminate H | intro; contradiction].
    + rewrite !has_surrogate_app, Hs, (description_printable _ _ D).
      reflexivity.
    + split; [reflexivity|]. split; [split; reflexivity|].
      split; [intros [H _]; discriminate H | intro; contradiction].
    + now rewrite !has_surrogate_app, Hs.
Qed.

Lemma update_verdict_witness :
  check_update (probe false "all") (serving (update_json "TOTALLY_NEW_CODE"))
  = Exit "WARNING - Unknown Update Status: TOTALLY_NEW_CODE. Update may be required. Go to TrueNAS Dashboard -> System -> Update to check for newer version." 1.
Proof.
  refine (eq_trans (proj1 (update_verdict (probe false "all")
                             "TOTALLY_NEW_CODE" eq_refl)) _).
  reflexivity.
Defined.

(** The examples of the specification. *)
Example replication_running_ok :
  check_repl (probe false "all")
    (serving (repls_json [ {| repl_name := "r1"; repl_state_code := "RUNNING" |} ]))
  = Exit "OK - No replication errors. Replications examined:  r1: RUNNING" 0.
Proof. reflexivity. Qed.

Example replication_error_warning :
  check_repl (probe false "all")
    (serving (repls_json [ {| repl_name := "r1"; repl_state_code := "ERROR" |} ]))
  = Exit "WARNING - There are 1 replication errors [r1: ERROR]. Go to Storage > Replication Tasks > View Replication Tasks in TrueNAS for more details." 1.
Proof. reflexivity. Qed.

Example update_available_warning :
  check_update (probe false "all") (serving (update_json "AVAILABLE"))
  = Exit "WARNING - Update Status: AVAILABLE (an update is available). Update may be required. Go to TrueNAS Dashboard -> System -> Update to check for newer version." 1.
Proof. reflexivity. Qed.

Example update_unknown_status_warning :
  check_update (probe false "all") (serving (update_json "TOTALLY_NEW_CODE"))
  = Exit "WARNING - Unknown Update Status: TOTALLY_NEW_CODE. Update may be required. Go to TrueNAS Dashboard -> System -> Update to check for newer version." 1.
Proof. reflexivity. Qed.

(** ** Failures *)

(** X19: when a call of the [requests] library raises, whatever the
    exception, each of the four checks prints UNKNOWN first and exits
    with 3. *)
Lemma request_failure_unknown (self : Startup) (e : exn) :
  reports (check_alerts self (failing e)) UNKNOWN
  /\ reports (check_zpool self (failing e)) UNKNOWN
  /\ reports (check_repl self (failing e)) UNKNOWN
  /\ reports (check_update self (failing e)) UNKNOWN.
Proof. repeat split. Qed.

(** X20: when the body of the response does not decode as JSON, each of
    the four checks prints UNKNOWN first and exits with 3. *)
Lemma decode_failure_unknown (self : Startup) (e : exn) :
  reports (check_alerts self (garbled e)) UNKNOWN
  /\ reports (check_zpool self (garbled e)) UNKNOWN
  /\ reports (check_repl self (garbled e)) UNKNOWN
  /\ reports (check_update self (garbled e)) UNKNOWN.
Proof. repeat split. Qed.

(** An exception inside the loop of the three list checks ends them with
    UNKNOWN and status 3, and the line holds nothing of the locals: it is
    the fixed prefix and the text of the exception. *)
Lemma alerts_exception_unknown (ig : bool) (alerts : json) (e : exn) :
  Alerts.scan ig alerts = Raise e ->
  Alerts.classify ig alerts
  = ExitExc "UNKNOWN - check_alerts() - Error when contacting TrueNAS server: "
            e 3.
Proof. unfold Alerts.classify. now intros ->. Qed.

Lemma zpool_exception_unknown (pool_filter : string) (pools : json)
  (e : exn) :
  Zpool.scan pool_filter pools = Raise e ->
  Zpool.classify pool_filter pools
  = ExitExc "UNKNOWN - check_zpool() - Error when contacting TrueNAS server: "
            e 3.
Proof. unfold Zpool.classify. now intros ->. Qed.

Lemma repl_exception_unknown (repls : json) (e : exn) :
  Repl.scan repls = Raise e ->
  Repl.classify repls
  = ExitExc "UNKNOWN - check_repl() - Error when contacting TrueNAS server: "
            e 3.
Proof. unfold Repl.classify. now intros ->. Qed.

(** A critical alert followed by an alert without a level: the critical
    fragment is dropped with the rest. *)
Example alerts_partial_result_dropped :
  check_alerts (probe false "all")
    (serving (JArr [ alert_json {| level := "CRITICAL"; dismissed := false;
                                   formatted := "Device failed" |};
                     JObj [ ("dismissed", JBool false) ] ]))
  = ExitExc "UNKNOWN - check_alerts() - Error when contacting TrueNAS server: "
            (KeyError (JStr "level")) 3.
Proof. reflexivity. Qed.

(** A check that comes to its [print] either reports the severity of the
    line or fails to encode it. *)
Lemma print_reports_or_fails (line : string) (status : Z) (s : severity) :
  up_to_blank line = severity_word s ->
  status = exit_code s ->
  (exists s', reports (print_then_exit line status) s')
  \/ print_then_exit line status = Traceback UnicodeEncodeError.
Proof.
  intros Hw Hs. unfold print_then_exit.
  destruct (has_surrogate line); [now right | left].
  exists s. split; cbn [first_word exit_status]; now f_equal.
Qed.

Lemma alerts_always_reports (ig : bool) (alerts : json) :
  (exists s, reports (Alerts.classify ig alerts) s)
  \/ Alerts.classify ig alerts = Traceback UnicodeEncodeError.
Proof.
  unfold Alerts.classify.
  destruct (Alerts.scan ig alerts) as [st|e].
  - unfold Alerts.report.
    destruct (0 <? Alerts.crit st)%N;
      [apply (print_reports_or_fails _ _ CRITICAL)
      | destruct (0 <? Alerts.warn st)%N;
        [apply (print_reports_or_fails _ _ WARNING)
        | apply (print_reports_or_fails _ _ OK)]];
      reflexivity.
  - left. exists UNKNOWN. split; reflexivity.
Qed.

Lemma zpool_always_reports (pool_filter : string) (pools : json) :
  (exists s, reports (Zpool.classify pool_filter pools) s)
  \/ Zpool.classify pool_filter pools = Traceback UnicodeEncodeError.
Proof.
  unfold Zpool.classify.
  destruct (Zpool.scan pool_filter pools) as [st|e].
  - unfold Zpool.report. cbv zeta.
    match goal with |- context [(0 <? ?c)%N] => destruct (0 <? c)%N end;
      [apply (print_reports_or_fails _ _ CRITICAL)
      | apply (print_reports_or_fails _ _ OK)];
      reflexivity.
  - left. exists UNKNOWN. split; reflexivity.
Qed.

Lemma repl_always_reports (repls : json) :
  (exists s, reports (Repl.classify repls) s)
  \/ Repl.classify repls = Traceback UnicodeEncodeError.
Proof.
  unfold Repl.classify.
  destruct (Repl.scan repls) as [st|e].
  - unfold Repl.report.
    destruct (0 <? Repl.errors st)%N;
      [apply (print_reports_or_fails _ _ WARNING)
      | apply (print_reports_or_fails _ _ OK)];
      reflexivity.
  - left. exists UNKNOWN. split; reflexivity.
Qed.

Lemma request_then_reports (self : Startup) (net : network)
  (resource : string) (ty : RequestTypeEnum) (k : json -> outcome) :
  (forall j, (exists s, reports (k j) s)
             \/ k j = Traceback UnicodeEncodeError) ->
  (exists s, reports (and_then (do_request self net resource ty) k) s)
  \/ and_then (do_request self net resource ty) k
     = Traceback UnicodeEncodeError.
Proof.
  intro Hk. unfold do_request.
  match goal with |- context [net ?r] => destruct (net r) as [e|ok [j|e]] end.
  - left. exists UNKNOWN. split; reflexivity.
  - destruct ok; cbn [and_then]; apply Hk.
  - destruct ok; cbn [and_then]; [|apply Hk].
    left. exists UNKNOWN. split; reflexivity.
Qed.

(** X21: for the categories [alerts], [zpool] and [repl], on every answer
    of the network and every document, the dispatcher either keeps the
    plugin convention (one of the four severity words comes first on the
    line and the exit status is the one of that severity) or stops in
    [print] on a line that cannot be encoded; no other exception leaves
    these checks. *)
Lemma list_checks_keep_convention (self : Startup) (net : network) :
  ((exists s, reports (handle_requested_alert_type self net "alerts") s)
   \/ handle_requested_alert_type self net "alerts"
      = Traceback UnicodeEncodeError)
  /\ ((exists s, reports (handle_requested_alert_type self net "zpool") s)
      \/ handle_requested_alert_type self net "zpool"
         = Traceback UnicodeEncodeError)
  /\ ((exists s, reports (handle_requested_alert_type self net "repl") s)
      \/ handle_requested_alert_type self net "repl"
         = Traceback UnicodeEncodeError).
Proof.
  repeat split.
  - apply request_then_reports. intro j. apply alerts_always_reports.
  - apply request_then_reports. intro j. apply zpool_always_reports.
  - apply request_then_reports. intro j. apply repl_always_reports.
Qed.

(** C8: a structural failure that does not end in UNKNOWN.  When the
    [status] field of the update document is not a string, the [try] block
    of [check_update] passes, and the line built after it raises a
    [TypeError] that nothing catches: the process prints no line and
    leaves with status 1, not 3. *)
Theorem update_status_not_a_string_escapes (self : Startup) (v : json) :
  is_str v = false ->
  check_update self (serving (JObj [ ("status", v) ])) = Traceback TypeError
  /\ exit_status (check_update self (serving (JObj [ ("status", v) ]))) = 1%Z
  /\ ~ reports (check_update self (serving (JObj [ ("status", v) ]))) UNKNOWN.
Proof.
  intro Hv. rewrite check_update_serving.
  assert (E : Update.classify (JObj [ ("status", v) ]) = Traceback TypeError)
    by (destruct v; try discriminate Hv; reflexivity).
  rewrite E. split; [reflexivity|]. split; [reflexivity|].
  intros [H _]. discriminate H.
Qed.

Lemma update_status_not_a_string_escapes_witness :
  check_update (probe false "all") (serving (JObj [ ("status", JNull) ]))
  = Traceback TypeError.
Proof.
  exact (proj1 (update_status_not_a_string_escapes (probe false "all") JNull
                  eq_refl)).
Defined.

(** C9: a category the dispatcher does not know.  It goes to print a line
    that begins with [Unknown type:] and to exit with 3: when the category
    holds no surrogate the line is printed, and its first word is
    [Unknown]; in every case the process reports none of the four
    severities. *)
Theorem unknown_category_breaks_convention (self : Startup) (net : network)
  (alert_type : string) :
  alert_type <> "alerts" ->
  alert_type <> "repl" ->
  alert_type <> "update" ->
  alert_type <> "zpool" ->
  (has_surrogate alert_type = false ->
   handle_requested_alert_type self net alert_type
   = Exit ("Unknown type: " ++ alert_type) 3
   /\ first_word (handle_requested_alert_type self net alert_type)
      = Some "Unknown")
  /\ handle_requested_alert_type self net alert_type
     = print_then_exit ("Unknown type: " ++ alert_type) 3
  /\ forall s, ~ reports (handle_requested_alert_type self net alert_type) s.
Proof.
  intros Ha Hr Hu Hz. unfold handle_requested_alert_type.
  apply String.eqb_neq in Ha, Hr, Hu, Hz. rewrite Ha, Hr, Hu, Hz.
  split; [|split; [reflexivity|]].
  - intro Hs. rewrite print_clean by now rewrite has_surrogate_app, Hs.
    split; reflexivity.
  - intros s [H _]. unfold print_then_exit in H.
    destruct (has_surrogate _); [discriminate H|].
    destruct s; discriminate H.
Qed.

Lemma unknown_category_breaks_convention_witness :
  handle_requested_alert_type (probe false "all") (serving (JArr [])) "disks"
  = Exit "Unknown type: disks" 3
  /\ first_word (handle_requested_alert_type (probe false "all")
                   (serving (JArr [])) "disks")
     = Some "Unknown".
Proof.
  destruct (unknown_category_breaks_convention
              (probe false "all") (serving (JArr [])) "disks")
    as (H & _ & _); try discriminate.
  exact (H eq_refl).
Defined.

(** The same category with a status that is not a string: the dispatcher
    prints nothing at all. *)
Example update_category_prints_nothing :
  first_word (handle_requested_alert_type (probe false "all")
                (serving (JObj [ ("status", JNull) ])) "update") = None
  /\ exit_status (handle_requested_alert_type (probe false "all")
                    (serving (JObj [ ("status", JNull) ])) "update") = 1%Z.
Proof. split; reflexivity. Qed.

(** * Further properties of the program *)

(** ** The request *)

Lemma do_request_answer (self : Startup) (net : network) (resource : string)
  (ty : RequestTypeEnum) :
  do_request self net resource ty = answer (net (request_of self resource ty)).
Proof. reflexivity. Qed.

(** X1: [do_request] hands the library one request, built from the
    configuration alone, and carries exactly one way to authenticate in it:
    the pair of user and secret and no header when a non-empty user name is
    configured, otherwise no pair and the secret as a bearer token. *)
Theorem do_request_one_auth_mode (self : Startup) (resource : string)
  (ty : RequestTypeEnum) :
  (forall net,
      do_request self net resource ty
      = answer (net (request_of self resource ty)))
  /\ req_type (request_of self resource ty) = ty
  /\ req_verify (request_of self resource ty) = _verify_cert self
  /\ match _user self with
     | Some (String c u) =>
         req_auth (request_of self resource ty)
         = AuthPair (String c u) (_secret self)
         /\ req_headers (request_of self resource ty) = []
     | _ =>
         req_auth (request_of self resource ty) = AuthFalse
         /\ req_headers (request_of self resource ty)
            = [("Authorization", "Bearer " ++ _secret self)]
     end.
Proof.
  split; [intro net; reflexivity|]. split; [reflexivity|].
  split; [reflexivity|].
  unfold request_of, user_given. cbn [req_auth req_headers].
  destruct (_user self) as [[|c u]|]; split; reflexivity.
Qed.

(** The URL of the request is the scheme ([https] unless TLS is
    switched off), the host, the API root, the resource and a closing
    slash. *)
Theorem request_url_shape (self : Startup) (resource : string)
  (ty : RequestTypeEnum) :
  req_url (request_of self resource ty)
  = (if _use_ssl self then "https://" else "http://")
    ++ _hostname self ++ "/api/v2.0/" ++ resource ++ "/".
Proof.
  unfold request_of, _base_url. cbn [req_url].
  destruct (_use_ssl self); cbn [append]; now rewrite !append_assoc.
Qed.

(** X2: the dispatcher asks the network at most once.  For a known
    category the outcome depends on the network only through its answer to
    one request, a GET for [alerts], [repl] and [zpool] and a POST for
    [update]; for any other category the network is not asked at all. *)
Theorem dispatcher_one_request (self : Startup) (alert_type : string)
  (net net' : network) :
  match route alert_type with
  | Some (resource, ty) =>
      net (request_of self resource ty) = net' (request_of self resource ty)
      -> handle_requested_alert_type self net alert_type
         = handle_requested_alert_type self net' alert_type
  | None =>
      handle_requested_alert_type self net alert_type
      = handle_requested_alert_type self net' alert_type
  end.
Proof.
  unfold route, handle_requested_alert_type.
  destruct (String.eqb alert_type "alerts");
    [| destruct (String.eqb alert_type "repl");
       [| destruct (String.eqb alert_type "update");
          [| destruct (String.eqb alert_type "zpool")]]];
    try reflexivity; intro H;
    unfold check_alerts, check_repl, check_update, check_zpool,
      get_request, post_request;
    now rewrite !do_request_answer, H.
Qed.

Lemma dispatcher_one_request_witness :
  handle_requested_alert_type (probe false "all")
    (fun r => match req_type r with
              | POST_REQUEST => Response true (Ok (update_json "AVAILABLE"))
              | GET_REQUEST => Raised (RequestException "refused")
              end) "update"
  = handle_requested_alert_type (probe false "all")
      (serving (update_json "AVAILABLE")) "update".
Proof.
  exact (dispatcher_one_request (probe false "all") "update"
           (fun r => match req_type r with
                     | POST_REQUEST =>
                         Response true (Ok (update_json "AVAILABLE"))
                     | GET_REQUEST => Raised (RequestException "refused")
                     end)
           (serving (update_json "AVAILABLE")) eq_refl).
Defined.

(** ** check_alerts *)

(** The outcome of the classifier on a well-formed list. *)
Lemma alerts_classify_closed (ig : bool) (rs : list AlertRecord) :
  Alerts.classify ig (alerts_json rs)
  = (if (0 <? count (counted_at ig "CRITICAL" rs))%N
     then print_then_exit
            ("CRITICAL " ++ critical_fragments ig rs
             ++ warning_fragments ig rs) 2
     else if (0 <? count (counted_at ig "WARNING" rs))%N
     then print_then_exit ("WARNING " ++ warning_fragments ig rs) 1
     else Exit "OK - No problem alerts" 0).
Proof.
  unfold Alerts.classify. rewrite alerts_scan_ok.
  unfold Alerts.report, alerts_after.
  cbn [Alerts.crit Alerts.warn Alerts.critial_messages
       Alerts.warning_messages Alerts.initial].
  rewrite !N.add_0_l.
  destruct (0 <? count (counted_at ig "CRITICAL" rs))%N; [reflexivity|].
  destruct (0 <? count (counted_at ig "WARNING" rs))%N; reflexivity.
Qed.


(** X5: an alert whose level is neither ["CRITICAL"] nor ["WARNING"],
    letter for letter, changes nothing: the loop ends with the same counts
    and messages, and the process ends the same way, as without it. *)
Theorem other_level_alert_invisible (self : Startup)
  (before after : list AlertRecord) (r : AlertRecord) :
  level r <> "CRITICAL" ->
  level r <> "WARNING" ->
  Alerts.scan (_ignore_dismissed_alerts self)
    (alerts_json (before ++ r :: after))
  = Alerts.scan (_ignore_dismissed_alerts self) (alerts_json (before ++ after))
  /\ check_alerts self (serving (alerts_json (before ++ r :: after)))
     = check_alerts self (serving (alerts_json (before ++ after))).
Proof.
  intros HC HW.
  assert (skip : forall ig l, (l = "CRITICAL" \/ l = "WARNING") ->
                 counted_at ig l (r :: after) = counted_at ig l after).
  { intros ig l Hl. unfold counted_at; cbn [filter]. unfold has_level.
    replace (String.eqb (level r) l) with false;
      [now rewrite andb_false_r|].
    symmetry. apply String.eqb_neq. destruct Hl; now subst. }
  assert (E : forall ig, alerts_after ig Alerts.initial (before ++ r :: after)
                         = alerts_after ig Alerts.initial (before ++ after)).
  { intro ig. unfold alerts_after, critical_fragments, warning_fragments.
    now rewrite !counted_at_app, !skip by auto. }
  split.
  - now rewrite !alerts_scan_ok, E.
  - rewrite !check_alerts_serving. unfold Alerts.classify.
    now rewrite !alerts_scan_ok, E.
Qed.

Lemma other_level_alert_invisible_witness :
  let r := {| level := "critical"; dismissed := false;
              formatted := "lower case" |} in
  check_alerts (probe false "all") (serving (alerts_json ([] ++ r :: [])))
  = check_alerts (probe false "all") (serving (alerts_json ([] ++ []))).
Proof.
  intro r.
  refine (proj2 (other_level_alert_invisible (probe false "all") [] [] r _ _));
    discriminate.
Defined.

Lemma count_filter_perm {A} (f : A -> bool) (l l' : list A) :
  Permutation l l' -> count (filter f l) = count (filter f l').
Proof.
  intro P. unfold count. f_equal.
  apply Permutation_length. now apply filter_perm.
Qed.

Lemma has_surrogate_join_perm (l l' : list string) :
  Permutation l l' -> has_surrogate (join l) = has_surrogate (join l').
Proof. intro P. rewrite !has_surrogate_join. now apply existsb_perm. Qed.

Lemma fragments_perm {A} (frag : A -> string) (keep : A -> bool)
  (l l' : list A) :
  Permutation l l' ->
  has_surrogate (join (map frag (filter keep l)))
  = has_surrogate (join (map frag (filter keep l'))).
Proof.
  intro P. apply has_surrogate_join_perm, Permutation_map.
  now apply filter_perm.
Qed.

(** X6: the order of the alerts does not matter for the verdict: two
    well-formed lists with the same records in any order give the same
    severity word and the same exit status. *)
Theorem alerts_verdict_order_independent (self : Startup)
  (rs rs' : list AlertRecord) :
  Permutation rs rs' ->
  first_word (check_alerts self (serving (alerts_json rs)))
  = first_word (check_alerts self (serving (alerts_json rs')))
  /\ exit_status (check_alerts self (serving (alerts_json rs)))
     = exit_status (check_alerts self (serving (alerts_json rs'))).
Proof.
  intro P. rewrite !check_alerts_serving, !alerts_classify_closed.
  unfold counted_at.
  rewrite (count_filter_perm
             (fun r => counted (_ignore_dismissed_alerts self) r
                       && has_level "CRITICAL" r) _ _ P).
  rewrite (count_filter_perm
             (fun r => counted (_ignore_dismissed_alerts self) r
                       && has_level "WARNING" r) _ _ P).
  destruct (0 <? _)%N; [|destruct (0 <? _)%N; [|split; reflexivity]];
    apply print_seen; try reflexivity;
    unfold critical_fragments, warning_fragments, counted_at;
    rewrite !has_surrogate_app;
    rewrite ?(fragments_perm critical_fragment _ _ _ P),
      (fragments_perm warning_fragment _ _ _ P);
    reflexivity.
Qed.

Lemma alerts_verdict_order_independent_witness :
  let c := {| level := "CRITICAL"; dismissed := false; formatted := "c" |} in
  let w := {| level := "WARNING"; dismissed := false; formatted := "w" |} in
  exit_status (check_alerts (probe false "all") (serving (alerts_json [c; w])))
  = exit_status (check_alerts (probe false "all")
                   (serving (alerts_json [w; c]))).
Proof.
  intros c w.
  exact (proj2 (alerts_verdict_order_independent (probe false "all")
                  [c; w] [w; c] (perm_swap w c []))).
Defined.

Lemma has_newline_app (a b : string) :
  has_newline (a ++ b) = has_newline a || has_newline b.
Proof.
  induction a as [|c a IH]; [reflexivity|].
  cbn [append has_newline]. now rewrite IH, orb_assoc.
Qed.

Lemma replace_newlines_clean (s : string) :
  has_newline (replace_newlines s) = false.
Proof.
  induction s as [|c s IH]; [reflexivity|].
  cbn [replace_newlines].
  destruct (Ascii.eqb c newline) eqn:E; cbn [has_newline].
  - exact IH.
  - now rewrite E, IH.
Qed.

Lemma join_clean (l : list string) :
  (forall s, In s l -> has_newline s = false) -> has_newline (join l) = false.
Proof.
  induction l as [|x l IH]; intro H; [reflexivity|].
  cbn [join fold_right]. rewrite has_newline_app.
  rewrite (H x (or_introl eq_refl)). apply IH. intros s Hs. apply H. now right.
Qed.

Lemma critical_fragments_clean (ig : bool) (rs : list AlertRecord) :
  has_newline (critical_fragments ig rs) = false.
Proof.
  apply join_clean. intros s Hs. apply in_map_iff in Hs as (r & <- & _).
  unfold critical_fragment.
  now rewrite !has_newline_app, replace_newlines_clean.
Qed.

Lemma warning_fragments_clean (ig : bool) (rs : list AlertRecord) :
  has_newline (warning_fragments ig rs) = false.
Proof.
  apply join_clean. intros s Hs. apply in_map_iff in Hs as (r & <- & _).
  unfold warning_fragment.
  now rewrite !has_newline_app, replace_newlines_clean.
Qed.

Lemma print_then_exit_inv (l line : string) (s status : Z) :
  print_then_exit l s = Exit line status -> line = l /\ status = s.
Proof.
  unfold print_then_exit. destruct (has_surrogate l); [discriminate|].
  intro H. injection H as <- <-. now split.
Qed.

(** X7: on a well-formed list, a line [check_alerts] prints is a single
    line: whatever the texts of the alerts hold, the printed string has no
    line break in it. *)
Theorem alerts_line_has_no_newline (self : Startup) (rs : list AlertRecord)
  (line : string) (status : Z) :
  check_alerts self (serving (alerts_json rs)) = Exit line status ->
  has_newline line = false.
Proof.
  rewrite check_alerts_serving, alerts_classify_closed.
  destruct (0 <? _)%N; [|destruct (0 <? _)%N]; intro H.
  - apply print_then_exit_inv in H as [-> _].
    now rewrite !has_newline_app, critical_fragments_clean,
      warning_fragments_clean.
  - apply print_then_exit_inv in H as [-> _].
    now rewrite !has_newline_app, warning_fragments_clean.
  - injection H as <- _. reflexivity.
Qed.

Lemma alerts_line_has_no_newline_witness :
  has_newline "WARNING - (W) Pool tank. is 81% full " = false.
Proof.
  exact (alerts_line_has_no_newline (probe false "all")
           [ {| level := "WARNING"; dismissed := false;
                formatted := "Pool tank" ++ String newline "is 81% full" |} ]
           "WARNING - (W) Pool tank. is 81% full " 1 eq_refl).
Defined.

(** A pool name with a line break goes to the output as it is. *)
Example zpool_line_may_break :
  exists line,
    check_zpool (probe false "all")
      (serving (pools_json
                  [ {| name := String newline "tank"; status := "ONLINE" |} ]))
    = Exit line 0
    /\ has_newline line = true.
Proof. eexists. split; reflexivity. Qed.

(** One turn of the loop reads three fields and nothing else. *)
Lemma alerts_body_fields (ig : bool) (st : Alerts.locals) (j j' : json) :
  same_alert_fields ig j j' ->
  Alerts.loop_body ig st j = Alerts.loop_body ig st j'.
Proof.
  intros (Hd & Hl & Hf). unfold Alerts.loop_body.
  rewrite Hl, Hf. destruct ig; [rewrite (Hd eq_refl)|]; reflexivity.
Qed.

Lemma for_each_ext {S X} (R : X -> X -> Prop)
  (step : S -> X -> result S) (xs ys : list X) :
  (forall s x y, R x y -> step s x = step s y) ->
  Forall2 R xs ys ->
  forall s, for_each step xs s = for_each step ys s.
Proof.
  intros Hstep F. induction F as [|x y xs ys Hxy F IH]; intro s;
    [reflexivity|].
  cbn [for_each]. rewrite (Hstep s x y Hxy).
  destruct (step s y); cbn [bind]; [apply IH | reflexivity].
Qed.

(** X8: [check_alerts] reads of each alert the fields [level] and
    [formatted], and [dismissed] only when dismissed alerts are ignored:
    two lists whose alerts agree on these, whatever else they hold, end the
    same way. *)
Theorem alerts_read_three_fields (self : Startup) (js js' : list json) :
  Forall2 (same_alert_fields (_ignore_dismissed_alerts self)) js js' ->
  check_alerts self (serving (JArr js))
  = check_alerts self (serving (JArr js')).
Proof.
  intro F. rewrite !check_alerts_serving.
  unfold Alerts.classify, Alerts.scan. cbn [iterate bind].
  rewrite (for_each_ext _ _ js js'
             (fun s x y => alerts_body_fields _ s x y) F).
  reflexivity.
Qed.

Lemma alerts_read_three_fields_witness :
  check_alerts (probe false "all")
    (serving (JArr [ JObj [ ("id", JStr "a1f0"); ("level", JStr "CRITICAL");
                            ("formatted", JStr "Device failed");
                            ("one_shot", JBool false) ] ]))
  = check_alerts (probe false "all")
      (serving (JArr [ alert_json {| level := "CRITICAL"; dismissed := true;
                                     formatted := "Device failed" |} ])).
Proof.
  apply (alerts_read_three_fields (probe false "all")).
  constructor; [|constructor].
  split; [discriminate | split; reflexivity].
Defined.

Lemma for_each_stops {S X} (step : S -> X -> result S) (xs ys : list X)
  (x : X) (s s' : S) (e : exn) :
  for_each step xs s = Ok s' ->
  step s' x = Raise e ->
  for_each step (xs ++ x :: ys)%list s = Raise e.
Proof.
  revert s. induction xs as [|a xs IH]; intros s Hxs Hx.
  - cbn in Hxs. injection Hxs as ->. cbn [app for_each]. now rewrite Hx.
  - cbn [app for_each] in *. destruct (step s a) as [s1|e1]; cbn [bind] in *;
      [now apply IH | discriminate].
Qed.

(** X9: the first alert the loop cannot read ends the check.  After any
    well-formed alerts, an alert without a [level] (and not skipped as
    dismissed) gives UNKNOWN and 3 with the [KeyError]; what was counted
    before is not printed and what follows is not looked at. *)
Theorem alert_without_level_aborts (self : Startup)
  (before : list AlertRecord) (fields : list (string * json))
  (after : list json) :
  assoc "level" fields = None ->
  (_ignore_dismissed_alerts self = true ->
   exists d, assoc "dismissed" fields = Some d /\ eq_True d = false) ->
  check_alerts self
    (serving (JArr (map alert_json before ++ JObj fields :: after)%list))
  = ExitExc "UNKNOWN - check_alerts() - Error when contacting TrueNAS server: "
            (KeyError (JStr "level")) 3.
Proof.
  intros Hl Hd. rewrite check_alerts_serving.
  unfold Alerts.classify, Alerts.scan. cbn [iterate bind].
  rewrite (for_each_stops _ (map alert_json before) after (JObj fields)
             Alerts.initial
             (alerts_after (_ignore_dismissed_alerts self) Alerts.initial
                           before)
             (KeyError (JStr "level")));
    [reflexivity | apply alerts_loop |].
  unfold Alerts.loop_body. cbn [subscript]. rewrite Hl.
  destruct (_ignore_dismissed_alerts self); [|reflexivity].
  destruct (Hd eq_refl) as (d & Ha & Hn). rewrite Ha. cbn [bind].
  rewrite Hn. reflexivity.
Qed.

Lemma alert_without_level_aborts_witness :
  check_alerts (probe false "all")
    (serving (JArr (map alert_json
                      [ {| level := "CRITICAL"; dismissed := false;
                           formatted := "Device failed" |} ]
                    ++ JObj [ ("formatted", JStr "no level") ]
                       :: [ JNull ])%list))
  = ExitExc "UNKNOWN - check_alerts() - Error when contacting TrueNAS server: "
            (KeyError (JStr "level")) 3.
Proof.
  apply (alert_without_level_aborts (probe false "all")).
  - reflexivity.
  - discriminate.
Defined.

(** ** check_zpool *)


(** X11: the order of the pools does not matter for the verdict of
    [check_zpool]: the severity word and the exit status are the same for
    two well-formed lists with the same pools in any order. *)
Theorem zpool_verdict_order_independent (self : Startup)
  (ps ps' : list PoolRecord) :
  Permutation ps ps' ->
  first_word (check_zpool self (serving (pools_json ps)))
  = first_word (check_zpool self (serving (pools_json ps')))
  /\ exit_status (check_zpool self (serving (pools_json ps)))
     = exit_status (check_zpool self (serving (pools_json ps'))).
Proof.
  intro P. rewrite !check_zpool_serving, !zpool_classify_closed.
  unfold faulty_pools, relevant_pools.
  rewrite (count_filter_perm
             (fun p => relevant (_zpool_name self) p && faulty p) _ _ P).
  rewrite (count_filter_perm (relevant (_zpool_name self)) _ _ P).
  assert (Hc : count ps = count ps')
    by (unfold count; now rewrite (Permutation_length P)).
  rewrite Hc.
  destruct (0 <? _)%N;
    [|destruct (_ && _ && _); [|destruct (_ && _); [split; reflexivity|]]];
    apply print_seen; try reflexivity;
    unfold Zpool.no_match_message; rewrite !has_surrogate_app.
  - now rewrite (fragments_perm pool_fragment _ _ _ P).
  - now rewrite (has_surrogate_join_perm _ _ (Permutation_map name_entry P)).
  - now rewrite (fragments_perm examined_entry _ _ _ P).
Qed.

Lemma zpool_verdict_order_independent_witness :
  let a := {| name := "tank"; status := "ONLINE" |} in
  let b := {| name := "backup"; status := "DEGRADED" |} in
  exit_status (check_zpool (probe false "all") (serving (pools_json [a; b])))
  = exit_status (check_zpool (probe false "all")
                   (serving (pools_json [b; a]))).
Proof.
  intros a b.
  exact (proj2 (zpool_verdict_order_independent (probe false "all")
                  [a; b] [b; a] (perm_swap b a []))).
Defined.

Lemma zpool_body_reading (pool_filter : string) (st : Zpool.locals)
  (j j' : json) :
  same_pool_reading pool_filter j j' ->
  Zpool.loop_body pool_filter st j = Zpool.loop_body pool_filter st j'.
Proof.
  intros [Hn [Hs | (Hall & n & v & v' & Hn1 & Hne & Hv & Hv')]];
    unfold Zpool.loop_body.
  - now rewrite Hn, Hs.
  - rewrite <- Hn, Hn1, Hv, Hv'. cbn [bind].
    destruct (add_str n " "); cbn [bind]; [|reflexivity].
    now rewrite Hall, Hne.
Qed.

(** X12: [check_zpool] reads of each pool its [name] and its [status] and
    nothing else, and it does not look into the status of a pool the
    filter leaves out: two lists whose pools agree on the name, and on the
    status of the pools that can be relevant, end the same way. *)
Theorem zpool_reads_name_and_status (self : Startup) (js js' : list json) :
  Forall2 (same_pool_reading (_zpool_name self)) js js' ->
  check_zpool self (serving (JArr js)) = check_zpool self (serving (JArr js')).
Proof.
  intro F. rewrite !check_zpool_serving.
  unfold Zpool.classify, Zpool.scan. cbn [iterate bind].
  rewrite (for_each_ext _ _ js js'
             (fun s x y => zpool_body_reading _ s x y) F).
  reflexivity.
Qed.

Lemma zpool_reads_name_and_status_witness :
  check_zpool (probe false "tank")
    (serving (JArr [ JObj [ ("name", JStr "backup"); ("status", JNull) ];
                     JObj [ ("guid", JStr "77"); ("name", JStr "tank");
                            ("status", JStr "ONLINE") ] ]))
  = check_zpool (probe false "tank")
      (serving (pools_json [ {| name := "backup"; status := "DEGRADED" |};
                             {| name := "tank"; status := "ONLINE" |} ])).
Proof.
  apply (zpool_reads_name_and_status (probe false "tank")).
  constructor; [|constructor; [|constructor]].
  - split; [reflexivity|]. right. split; [reflexivity|].
    exists (JStr "backup"), JNull, (JStr "DEGRADED").
    repeat split; reflexivity.
  - split; [reflexivity | left; reflexivity].
Defined.

Lemma lower_char_a (c : ascii) :
  lower_char c = "a"%char -> c = "a"%char \/ c = "A"%char.
Proof.
  destruct c as [[] [] [] [] [] [] [] []]; vm_compute; intro H;
    try discriminate H; auto.
Qed.

Lemma lower_char_l (c : ascii) :
  lower_char c = "l"%char -> c = "l"%char \/ c = "L"%char.
Proof.
  destruct c as [[] [] [] [] [] [] [] []]; vm_compute; intro H;
    try discriminate H; auto.
Qed.

(** X13: the filter selects every pool exactly when it is one of the eight
    spellings of ["all"] in upper and lower case; a blank before or after
    it, or any other word, makes it the name of a pool. *)
Theorem all_filter_spellings (zpool_name : string) :
  Zpool.looking_for_all_pools zpool_name = true
  <-> In zpool_name all_spellings.
Proof.
  unfold Zpool.looking_for_all_pools. split.
  - intro H. apply String.eqb_eq in H.
    destruct zpool_name as [|c1 [|c2 [|c3 [|c4 s]]]]; try discriminate H.
    cbn [lower] in H. injection H as H1 H2 H3.
    apply lower_char_a in H1. apply lower_char_l in H2, H3.
    destruct H1, H2, H3; subst; cbn; tauto.
  - intro H. cbn in H.
    repeat (destruct H as [<- | H]; [reflexivity|]). contradiction.
Qed.

(** ** check_repl *)

(** X14: the order of the replications does not matter for the verdict of
    [check_repl]: the severity word and the exit status are the same for
    two well-formed lists with the same records in any order. *)
Theorem repl_verdict_order_independent (self : Startup)
  (rs rs' : list ReplicationRecord) :
  Permutation rs rs' ->
  first_word (check_repl self (serving (repls_json rs)))
  = first_word (check_repl self (serving (repls_json rs')))
  /\ exit_status (check_repl self (serving (repls_json rs)))
     = exit_status (check_repl self (serving (repls_json rs'))).
Proof.
  intro P. rewrite !check_repl_serving, !repl_classify_closed.
  unfold problems. rewrite (count_filter_perm problem _ _ P).
  destruct (0 <? _)%N; apply print_seen; try reflexivity;
    rewrite !has_surrogate_app, ?has_surrogate_strip.
  - now rewrite (fragments_perm repl_fragment _ _ _ P).
  - now rewrite (has_surrogate_join_perm _ _ (Permutation_map repl_entry P)).
Qed.

Lemma repl_verdict_order_independent_witness :
  let a := {| repl_name := "r1"; repl_state_code := "ERROR" |} in
  let b := {| repl_name := "r2"; repl_state_code := "FINISHED" |} in
  exit_status (check_repl (probe false "all") (serving (repls_json [a; b])))
  = exit_status (check_repl (probe false "all") (serving (repls_json [b; a]))).
Proof.
  intros a b.
  exact (proj2 (repl_verdict_order_independent (probe false "all")
                  [a; b] [b; a] (perm_swap b a []))).
Defined.

Lemma repl_body_reading (st : Repl.locals) (j j' : json) :
  same_repl_fields j j' ->
  Repl.loop_body st j = Repl.loop_body st j'.
Proof.
  intros [Hn Hs]. unfold Repl.loop_body. unfold state_code_of in Hs.
  rewrite <- Hn. destruct (subscript j "name") as [n|e]; cbn [bind];
    [|reflexivity].
  destruct (subscript j "state") as [o|e], (subscript j' "state") as [o'|e'];
    cbn [bind] in *.
  - now rewrite Hs.
  - now rewrite Hs.
  - now rewrite <- Hs.
  - now injection Hs as ->.
Qed.

(** X15: [check_repl] reads of each replication its [name] and the [state]
    inside its [state] object, and nothing else: two lists whose
    replications agree on these end the same way. *)
Theorem repl_reads_name_and_state (self : Startup) (js js' : list json) :
  Forall2 same_repl_fields js js' ->
  check_repl self (serving (JArr js)) = check_repl self (serving (JArr js')).
Proof.
  intro F. rewrite !check_repl_serving.
  unfold Repl.classify, Repl.scan. cbn [iterate bind].
  rewrite (for_each_ext _ _ js js' repl_body_reading F).
  reflexivity.
Qed.

Lemma repl_reads_name_and_state_witness :
  check_repl (probe false "all")
    (serving (JArr [ JObj [ ("id", JInt 4); ("name", JStr "r1");
                            ("state", JObj [ ("datetime", JNull);
                                             ("state", JStr "ERROR") ]);
                            ("enabled", JBool true) ] ]))
  = check_repl (probe false "all")
      (serving (repls_json [ {| repl_name := "r1";
                                repl_state_code := "ERROR" |} ])).
Proof.
  apply (repl_reads_name_and_state (probe false "all")).
  constructor; [|constructor]. split; reflexivity.
Defined.

(** ** check_update *)

(** X16: what [check_update] makes of a document of any shape.  A document
    that is no object gives UNKNOWN and 3 on a [TypeError]; an object
    without [status] gives UNKNOWN and 3 on the [KeyError]; of an object
    with a [status] only that field counts. *)
Theorem update_document_shapes (self : Startup) (payload : json) :
  check_update self (serving payload)
  = match payload with
    | JObj fields =>
        match assoc "status" fields with
        | Some v => check_update self (serving (JObj [ ("status", v) ]))
        | None =>
            ExitExc
              "UNKNOWN - check_update() - Error when contacting TrueNAS server: "
              (KeyError (JStr "status")) 3
        end
    | _ =>
        ExitExc
          "UNKNOWN - check_update() - Error when contacting TrueNAS server: "
          TypeError 3
    end.
Proof.
  rewrite check_update_serving.
  destruct payload as [| | | | |items|fields]; try reflexivity.
  unfold Update.classify, Update.extract. cbn [subscript].
  destruct (assoc "status" fields) as [v|]; reflexivity.
Qed.

Lemma update_report_status (v : json) (needs : bool) (line : string)
  (code : Z) :
  Update.report v needs = Ok (line, code) -> code = 0%Z \/ code = 1%Z.
Proof.
  unfold Update.report. destruct needs.
  - destruct (in_keys v _) as [[|]|e]; cbn [bind]; [| |discriminate].
    + destruct (str_add _ v) as [l1|e]; cbn [bind]; [|discriminate].
      destruct (Update.dict_subscript v) as [d|e]; cbn [bind];
        [|discriminate].
      intro H; injection H as _ <-; now right.
    + destruct (str_add _ v) as [l1|e]; cbn [bind]; [|discriminate].
      intro H; injection H as _ <-; now right.
  - destruct (str_add _ v) as [l1|e]; cbn [bind]; [|discriminate].
    destruct (Update.dict_subscript v) as [d|e]; cbn [bind]; [|discriminate].
    intro H; injection H as _ <-; now left.
Qed.

Lemma print_status (line : string) (status : Z) (allowed : list Z) :
  In status allowed -> In 1%Z allowed ->
  In (exit_status (print_then_exit line status)) allowed.
Proof.
  intros Hs H1. unfold print_then_exit.
  now destruct (has_surrogate line).
Qed.

Lemma print_status_one (line : string) (status : Z) :
  status <> 1%Z ->
  exit_status (print_then_exit line status) = 1%Z ->
  print_then_exit line status = Traceback UnicodeEncodeError.
Proof.
  unfold print_then_exit. destruct (has_surrogate line); [reflexivity|].
  cbn [exit_status]. congruence.
Qed.

Lemma update_classify_status (payload : json) :
  In (exit_status (Update.classify payload)) [0; 1; 3]%Z.
Proof.
  unfold Update.classify.
  destruct (Update.extract payload) as [[v needs]|e]; [|cbn; auto].
  destruct (Update.report v needs) as [[line code]|e] eqn:R; [|cbn; auto].
  apply print_status; [|cbn; auto].
  destruct (update_report_status _ _ _ _ R) as [-> | ->]; cbn; auto.
Qed.

(** ** The exit statuses of the checks *)

(** What holds of every UNKNOWN line of [do_request] and of the rest of
    the check holds of the check. *)
Lemma request_then (P : outcome -> Prop) (self : Startup) (net : network)
  (resource : string) (ty : RequestTypeEnum) (k : json -> outcome) :
  (forall prefix e, P (ExitExc prefix e 3)) ->
  (forall j, P (k j)) ->
  P (and_then (do_request self net resource ty) k).
Proof.
  intros H3 Hk. rewrite do_request_answer.
  destruct (net _) as [e|ok [j|e]]; cbn [answer and_then];
    [apply H3 | destruct ok; cbn [and_then]; apply Hk |
     destruct ok; cbn [and_then]; [apply H3 | apply Hk]].
Qed.

(** X17: the exit statuses each check can leave with, whatever the network
    answers: [check_alerts] and [check_zpool] one of 0, 1, 2, 3;
    [check_repl] and [check_update] one of 0, 1, 3, never the CRITICAL
    status; and [check_zpool] leaves with 1 only when [print] could not
    encode its line, never on a WARNING verdict. *)
Theorem exit_statuses_of_checks (self : Startup) (net : network) :
  In (exit_status (check_alerts self net)) [0; 1; 2; 3]%Z
  /\ In (exit_status (check_zpool self net)) [0; 1; 2; 3]%Z
  /\ In (exit_status (check_repl self net)) [0; 1; 3]%Z
  /\ In (exit_status (check_update self net)) [0; 1; 3]%Z
  /\ (exit_status (check_zpool self net) = 1%Z ->
      check_zpool self net = Traceback UnicodeEncodeError).
Proof.
  repeat split.
  - apply (request_then (fun o => In (exit_status o) [0; 1; 2; 3]%Z));
      [cbn; auto|]. intro j.
    unfold Alerts.classify.
    destruct (Alerts.scan _ j) as [st|e]; [|cbn; auto].
    unfold Alerts.report.
    destruct (0 <? Alerts.crit st)%N; [apply print_status; cbn; auto|].
    destruct (0 <? Alerts.warn st)%N; apply print_status; cbn; auto.
  - apply (request_then (fun o => In (exit_status o) [0; 1; 2; 3]%Z));
      [cbn; auto|]. intro j.
    unfold Zpool.classify.
    destruct (Zpool.scan _ j) as [st|e]; [|cbn; auto].
    unfold Zpool.report. cbv zeta.
    match goal with |- context [(0 <? ?c)%N] => destruct (0 <? c)%N end;
      cbn [N.ltb N.compare]; apply print_status; cbn; auto.
  - apply (request_then (fun o => In (exit_status o) [0; 1; 3]%Z));
      [cbn; auto|]. intro j.
    unfold Repl.classify.
    destruct (Repl.scan j) as [st|e]; [|cbn; auto].
    unfold Repl.report.
    destruct (0 <? Repl.errors st)%N; apply print_status; cbn; auto.
  - apply (request_then (fun o => In (exit_status o) [0; 1; 3]%Z));
      [cbn; auto|]. intro j.
    apply update_classify_status.
  - apply (request_then
             (fun o => exit_status o = 1%Z ->
                       o = Traceback UnicodeEncodeError));
      [discriminate|]. intro j.
    unfold Zpool.classify.
    destruct (Zpool.scan _ j) as [st|e]; [|discriminate].
    unfold Zpool.report. cbv zeta.
    match goal with |- context [(0 <? ?c)%N] => destruct (0 <? c)%N end;
      cbn [N.ltb N.compare]; apply print_status_one; discriminate.
Qed.

Lemma exit_statuses_of_checks_witness :
  check_zpool (probe false "all")
    (serving (pools_json [ {| name := surrogate 0; status := "ONLINE" |} ]))
  = Traceback UnicodeEncodeError.
Proof.
  destruct (exit_statuses_of_checks (probe false "all")
              (serving (pools_json
                          [ {| name := surrogate 0; status := "ONLINE" |} ])))
    as (_ & _ & _ & _ & H).
  exact (H eq_refl).
Defined.

(** ** Documents that are no list *)

Lemma chars_cons (c : ascii) (s : string) :
  exists h t, chars (String c s) = h :: t.
Proof.
  cbn [chars]. destruct (chars s) as [|x xs]; [now eexists; eexists|].
  destruct (starts_with_continuation x); now eexists; eexists.
Qed.

(** X18: a document that is no list in the place of the list.  An empty
    object and an empty string pass for the empty list; every other
    document (null, a boolean, a number, a string, an object with fields)
    ends each of the three list checks with UNKNOWN and 3 on a
    [TypeError]. *)
Theorem list_checks_on_other_documents (self : Startup) (payload : json) :
  is_array payload = false ->
  check_alerts self (serving payload)
  = (if empty_container payload
     then Exit "OK - No problem alerts" 0
     else ExitExc
            "UNKNOWN - check_alerts() - Error when contacting TrueNAS server: "
            TypeError 3)
  /\ check_zpool self (serving payload)
     = (if empty_container payload
        then check_zpool self (serving (JArr []))
        else ExitExc
               "UNKNOWN - check_zpool() - Error when contacting TrueNAS server: "
               TypeError 3)
  /\ check_repl self (serving payload)
     = (if empty_container payload
        then Exit "OK - No replication errors. Replications examined: " 0
        else ExitExc
               "UNKNOWN - check_repl() - Error when contacting TrueNAS server: "
               TypeError 3).
Proof.
  intro Ha.
  rewrite !check_alerts_serving, !check_zpool_serving, !check_repl_serving.
  unfold Alerts.classify, Zpool.classify, Repl.classify,
    Alerts.scan, Zpool.scan, Repl.scan.
  destruct payload as [| | | |s|items|fields]; try discriminate Ha;
    try (repeat split; reflexivity).
  - destruct s as [|c s]; [repeat split; reflexivity|].
    cbn [iterate empty_container bind].
    destruct (chars_cons c s) as (h & t & ->). cbn [map for_each].
    unfold Alerts.loop_body. destruct (_ignore_dismissed_alerts self);
      repeat split; reflexivity.
  - destruct fields as [|[k v] rest]; [repeat split; reflexivity|].
    cbn [iterate empty_container bind map for_each fst].
    unfold Alerts.loop_body. destruct (_ignore_dismissed_alerts self);
      repeat split; reflexivity.
Qed.

Lemma list_checks_on_other_documents_witness :
  check_alerts (probe true "all")
    (serving (JObj [ ("error", JStr "not found") ]))
  = ExitExc "UNKNOWN - check_alerts() - Error when contacting TrueNAS server: "
            TypeError 3.
Proof.
  exact (proj1 (list_checks_on_other_documents (probe true "all")
                  (JObj [ ("error", JStr "not found") ]) eq_refl)).
Defined.
